(** * SAT study-plan generator: a shallow embedding of [planGenerator.ts]

    The plan generator is a pure pipeline over JavaScript numbers, strings
    and arrays.  JavaScript numbers are IEEE-754 binary64 values; they
    are modelled here by [spec_float] with the rounding functions of the
    standard library ([prec = 53], [emax = 1024]).  Quantities that the
    program only ever uses as whole numbers (week indices, literal hour
    figures and percentages, array lengths) are carried as [Z]; binary64
    represents every integer below [2^53] exactly, so [+], [-] and the
    comparisons of such values are those of [Z]. *)

From Stdlib Require Import ZArith Lia List String Ascii Bool.
From Stdlib Require Import Floats.SpecFloat.
Import ListNotations.

Local Open Scope string_scope.
Local Open Scope Z_scope.

(** ** JavaScript numbers *)

Module JS.

Definition number := spec_float.

Definition prec : Z := 53.
Definition emax : Z := 1024.

Definition NaN : number := S754_nan.

Definition mul : number -> number -> number := SFmul prec emax.
Definition div : number -> number -> number := SFdiv prec emax.
Definition add : number -> number -> number := SFadd prec emax.
Definition sub : number -> number -> number := SFsub prec emax.

(** The number written as the integer literal [z]. *)
Definition of_Z (z : Z) : number := binary_normalize prec emax z 0 false.

(** The number written as the decimal literal [n / d] with [d] a power of
    ten ([lit 13 10] is [1.3]).  Numerator and denominator are exact and
    binary64 division rounds correctly, so this is the double nearest to
    the decimal, which is what a JavaScript literal denotes. *)
Definition lit (n d : Z) : number := div (of_Z n) (of_Z d).

(** Signed mantissa and exponent of a finite number; zeros have mantissa 0. *)
Definition mant (x : number) : Z :=
  match x with
  | S754_finite s m _ => cond_Zopp s (Zpos m)
  | _ => 0
  end.

Definition expo (x : number) : Z :=
  match x with
  | S754_finite _ _ e => e
  | _ => 0
  end.

(** Position on the extended line: -1 and 1 for the infinities. *)
Definition side (x : number) : Z :=
  match x with
  | S754_infinity true => -1
  | S754_infinity false => 1
  | _ => 0
  end.

Definition is_nan (x : number) : bool :=
  match x with S754_nan => true | _ => false end.

Definition is_finite (x : number) : bool :=
  match x with S754_finite _ _ _ | S754_zero _ => true | _ => false end.

(** Comparison of the values two numbers denote; [None] when either is
    NaN.  Both mantissas are brought to the smaller exponent. *)
Definition compare (x y : number) : option comparison :=
  if is_nan x || is_nan y then None
  else
    Some match side x ?= side y with
         | Eq =>
             if side x =? 0 then
               let e0 := Z.min (expo x) (expo y) in
               (mant x * 2 ^ (expo x - e0) ?= mant y * 2 ^ (expo y - e0))
             else Eq
         | c => c
         end.

(** [x < y], [x <= y], [x > y], [x >= y], [x === y]: all false on NaN. *)
Definition ltb (x y : number) : bool :=
  match compare x y with Some Lt => true | _ => false end.
Definition leb (x y : number) : bool :=
  match compare x y with Some (Lt | Eq) => true | _ => false end.
Definition gtb (x y : number) : bool := ltb y x.
Definition geb (x y : number) : bool := leb y x.
Definition eqb (x y : number) : bool :=
  match compare x y with Some Eq => true | _ => false end.

Definition is_neg_zero (x : number) : bool :=
  match x with S754_zero true => true | _ => false end.

(** [Math.min] and [Math.max]: NaN if either argument is, and [-0] is
    below [+0]. *)
Definition Math_min (x y : number) : number :=
  if is_nan x || is_nan y then NaN
  else if ltb x y then x
  else if ltb y x then y
  else if is_neg_zero x then x else y.

Definition Math_max (x y : number) : number :=
  if is_nan x || is_nan y then NaN
  else if ltb x y then y
  else if ltb y x then x
  else if is_neg_zero x then y else x.

(** Integer parts of a finite number [mant * 2^expo]. *)
Definition floorZ (x : number) : Z :=
  if 0 <=? expo x then mant x * 2 ^ expo x
  else mant x / 2 ^ (- expo x).

Definition ceilZ (x : number) : Z :=
  if 0 <=? expo x then mant x * 2 ^ expo x
  else - ((- mant x) / 2 ^ (- expo x)).

(** Nearest integer, ties towards plus infinity: [floor (x + 1/2)]
    computed exactly. *)
Definition roundZ (x : number) : Z :=
  if 0 <=? expo x then mant x * 2 ^ expo x
  else (2 * mant x + 2 ^ (- expo x)) / 2 ^ (- expo x + 1).

Definition sign_bit (x : number) : bool :=
  match x with
  | S754_zero s | S754_infinity s | S754_finite s _ _ => s
  | S754_nan => false
  end.

(** An integer result as a number; a zero result keeps the sign of the
    argument ([Math.ceil(-0.5)] is [-0]). *)
Definition integral (x : number) (z : Z) : number :=
  match x with
  | S754_finite _ _ _ => if z =? 0 then S754_zero (sign_bit x) else of_Z z
  | _ => x
  end.

(** [Math.floor], [Math.ceil], [Math.round]: zeros, infinities and NaN
    are returned unchanged. *)
Definition Math_floor (x : number) : number := integral x (floorZ x).
Definition Math_ceil (x : number) : number := integral x (ceilZ x).
Definition Math_round (x : number) : number := integral x (roundZ x).

(** The integer held by an integer-valued number (0 for the zeros; the
    program never reads an infinity or NaN as a week index). *)
Definition to_int (x : number) : Z := floorZ x.

(** [x || d] on numbers: [0], [-0] and NaN are falsy. *)
Definition or_else (x d : number) : number :=
  match x with
  | S754_zero _ | S754_nan => d
  | _ => x
  end.

End JS.

Import JS.

(** ** Core types ([types.ts]) *)

Inductive Difficulty := small | moderate | significant | large | very_large.

Inductive PlanType := cram | short | standard | extended | long_term.

Inductive RecommendationType :=
  increase_intensity | add_tutoring | extend_timeline | adjust_target.

Inductive Priority := high | medium | low.

Inductive ActivityType :=
  act_diagnostic | act_lesson | act_practice | act_review | act_test
| act_rest | act_tutoring.

(** A [Date] is its time value, milliseconds since the epoch. *)
Definition Date := Z.

Module UserInput.
Record t := mk {
  testDate : Date;
  currentScore : number;
  targetScore : number;
  tutoringSessionsPerWeek : Z   (* 1 | 2 | 3 | 4 *)
}.
End UserInput.

Module Timeline.
Record t := mk {
  startDate : Date;
  testDate : Date;
  totalDays : Z;
  totalWeeks : Z;
  effectiveWeeks : Z
}.
End Timeline.

Module ScoreGap.
Record t := mk {
  totalGap : number;
  isAchievable : bool;
  difficulty : Difficulty
}.
End ScoreGap.

(** A value stored in the [details] object of a recommendation. *)
Inductive Value := VNum (x : number) | VStr (s : string).

Module Recommendation.
(** The [message] field is display text built by number formatting; it is
    not part of the model. *)
Record t := mk {
  type : RecommendationType;
  priority : Priority;
  impact : number;
  details : list (string * Value)
}.
End Recommendation.

Module FeasibilityAssessment.
Record t := mk {
  isFeasible : bool;
  confidence : number;
  projectedImprovement : number;
  shortfall : option number;
  recommendations : list Recommendation.t
}.
End FeasibilityAssessment.

Module ContentDistribution.
Record t := mk {
  learning : Z;
  practice : Z;
  testing : Z;
  review : Z
}.
End ContentDistribution.

Module Phase.
Record t := mk {
  name : string;
  startWeek : Z;
  endWeek : Z;
  focus : string;
  objectives : list string;
  weeklyHours : Z;
  contentDistribution : ContentDistribution.t
}.
End Phase.

Module Activity.
Record t := mk {
  type : ActivityType;
  name : string;
  duration : number;
  description : string
}.
End Activity.

Module TutoringSession.
Record t := mk {
  sessionNumber : Z;
  duration : Z;
  focus : list string;
  suggestedTopics : list string
}.
End TutoringSession.

Module WeeklyPlan.
Record t := mk {
  weekNumber : Z;
  phase : string;
  focus : list string;
  activities : list Activity.t;
  tutoringSessions : list TutoringSession.t;
  targetHours : Z;
  targetProblems : number;
  totalHoursWithTutoring : number
}.
End WeeklyPlan.

Module Tutoring.
Record t := mk {
  sessionsPerWeek : Z;
  totalSessions : Z;
  hoursPerWeek : number;
  multiplierApplied : number
}.
End Tutoring.

Module StudyPlan.
Record t := mk {
  createdAt : Date;
  startDate : Date;
  testDate : Date;
  totalWeeks : Z;
  startingScore : number;
  targetScore : number;
  projectedScore : number;
  scoreGap : ScoreGap.t;
  planType : PlanType;
  phases : list Phase.t;
  weeklyPlans : list WeeklyPlan.t;
  feasibility : FeasibilityAssessment.t;
  studyIntensity : string;
  weeklyHoursRecommended : number;
  tutoring : Tutoring.t
}.
End StudyPlan.

(** ** Constants *)

(** A [Record<string, number>] read at a key; a missing key reads
    [undefined], which every arithmetic use turns into NaN. *)
Fixpoint lookup (tbl : list (string * number)) (k : string) : number :=
  match tbl with
  | [] => NaN
  | (k', v) :: rest => if String.eqb k k' then v else lookup rest k
  end.

Definition WEEKLY_IMPROVEMENT_RATES : list (string * number) :=
  [ ("light", of_Z 8); ("moderate", of_Z 15);
    ("intensive", of_Z 22); ("very_intensive", of_Z 30) ].

Definition MAX_IMPROVEMENTS : list (string * number) :=
  [ ("light", of_Z 150); ("moderate", of_Z 250);
    ("intensive", of_Z 350); ("very_intensive", of_Z 450) ].

Definition WEEKLY_HOURS : list (string * number) :=
  [ ("light", of_Z 3); ("moderate", lit 65 10);
    ("intensive", lit 105 10); ("very_intensive", lit 165 10) ].

Definition TUTORING_MULTIPLIERS (k : Z) : number :=
  match k with
  | 1 => lit 120 100
  | 2 => lit 130 100
  | 3 => lit 135 100
  | 4 => lit 140 100
  | _ => NaN
  end.

Definition TUTORING_SESSION_DURATION : Z := 60.

(** ** Score gap *)

Definition calculateScoreGap (currentScore targetScore : number) : ScoreGap.t :=
  let totalGap := Math_max (of_Z 0) (sub targetScore currentScore) in
  let difficulty :=
    if leb totalGap (of_Z 100) then small
    else if leb totalGap (of_Z 150) then moderate
    else if leb totalGap (of_Z 250) then significant
    else if leb totalGap (of_Z 350) then large
    else very_large in
  ScoreGap.mk totalGap (leb totalGap (of_Z 500)) difficulty.

Definition getRecommendedWeeks (scoreGap : number) : Z :=
  if leb scoreGap (of_Z 50) then 4
  else if leb scoreGap (of_Z 100) then 6
  else if leb scoreGap (of_Z 150) then 8
  else if leb scoreGap (of_Z 200) then 12
  else if leb scoreGap (of_Z 300) then 16
  else if leb scoreGap (of_Z 400) then 24
  else 36.

(** ** Feasibility assessment *)

Definition intensityLevels : list string :=
  ["light"; "moderate"; "intensive"; "very_intensive"].

(** [Array.prototype.indexOf]: first position of [k], or -1. *)
Fixpoint indexOf_from (l : list string) (k : string) (i : Z) : Z :=
  match l with
  | [] => -1
  | x :: rest => if String.eqb x k then i else indexOf_from rest k (i + 1)
  end.

Definition indexOf (l : list string) (k : string) : Z := indexOf_from l k 0.

(** The loop over the tiers above the current one; [levels] is the part
    of [intensityLevels] from index [currentIdx + 1] on.  The first tier
    whose projection reaches the gap yields one recommendation and ends
    the loop ([break]). *)
Fixpoint scanIntensity (levels : list string) (weeks : Z)
    (tutoringMultiplier gap projectedImprovement : number)
    : list Recommendation.t :=
  match levels with
  | [] => []
  | newIntensity :: rest =>
      let newWeekly :=
        mul (lookup WEEKLY_IMPROVEMENT_RATES newIntensity) tutoringMultiplier in
      let newMax :=
        mul (lookup MAX_IMPROVEMENTS newIntensity) tutoringMultiplier in
      let newProjection := Math_min (mul (of_Z weeks) newWeekly) newMax in
      if geb newProjection gap then
        [ Recommendation.mk increase_intensity high
            (sub newProjection projectedImprovement)
            [ ("newIntensity", VStr newIntensity);
              ("projectedImprovement", VNum newProjection) ] ]
      else scanIntensity rest weeks tutoringMultiplier gap projectedImprovement
  end.

(** The default arguments (['moderate'], [2]) apply only to a call that
    omits them; both are explicit here. *)
Definition assessFeasibility (timeline : Timeline.t) (scoreGap : ScoreGap.t)
    (intensity : string) (tutoringSessionsPerWeek : Z)
    : FeasibilityAssessment.t :=
  let weeks := Timeline.effectiveWeeks timeline in
  let gap := ScoreGap.totalGap scoreGap in
  let baseWeeklyRate := lookup WEEKLY_IMPROVEMENT_RATES intensity in
  let baseMaxImprovement := lookup MAX_IMPROVEMENTS intensity in
  let tutoringMultiplier := TUTORING_MULTIPLIERS tutoringSessionsPerWeek in
  let weeklyRate := mul baseWeeklyRate tutoringMultiplier in
  let maxImprovement := mul baseMaxImprovement tutoringMultiplier in
  let rawProjection := mul (of_Z weeks) weeklyRate in
  let projectedImprovement := Math_min rawProjection maxImprovement in
  if geb projectedImprovement gap then
    let buffer := sub projectedImprovement gap in
    let confidence :=
      if gtb gap (of_Z 0)
      then Math_min (of_Z 95) (add (of_Z 60) (mul (div buffer gap) (of_Z 35)))
      else of_Z 95 in
    FeasibilityAssessment.mk true (Math_round confidence)
      projectedImprovement None []
  else
    let shortfall := sub gap projectedImprovement in
    let confidence :=
      Math_max (of_Z 20) (sub (of_Z 60) (div shortfall (of_Z 10))) in
    let currentIdx := indexOf intensityLevels intensity in
    let recs1 :=
      scanIntensity (skipn (Z.to_nat (currentIdx + 1)) intensityLevels)
        weeks tutoringMultiplier gap projectedImprovement in
    let recs2 :=
      if tutoringSessionsPerWeek <? 4 then
        let higherTutoring := Z.min 4 (tutoringSessionsPerWeek + 1) in
        let higherMultiplier := TUTORING_MULTIPLIERS higherTutoring in
        let withMoreTutoring :=
          Math_min (mul (mul (of_Z weeks) baseWeeklyRate) higherMultiplier)
                   (mul baseMaxImprovement higherMultiplier) in
        if geb withMoreTutoring gap then
          [ Recommendation.mk add_tutoring high
              (sub withMoreTutoring projectedImprovement)
              [ ("currentSessions", VNum (of_Z tutoringSessionsPerWeek));
                ("recommendedSessions", VNum (of_Z higherTutoring));
                ("projectedWithMoreTutoring", VNum withMoreTutoring) ] ]
        else []
      else [] in
    let additionalWeeksNeeded := Math_ceil (div shortfall weeklyRate) in
    let rec3 :=
      Recommendation.mk extend_timeline medium shortfall
        [ ("additionalWeeks", VNum additionalWeeksNeeded) ] in
    let currentScore := of_Z 1000 in (* placeholder, will be passed in actual use *)
    let achievableScore :=
      mul (Math_round (div (add projectedImprovement currentScore) (of_Z 10)))
          (of_Z 10) in
    let rec4 :=
      Recommendation.mk adjust_target low shortfall
        [ ("achievableScore", VNum achievableScore) ] in
    FeasibilityAssessment.mk false (Math_round confidence)
      projectedImprovement (Some shortfall)
      (recs1 ++ recs2 ++ [rec3; rec4]).

(** ** Plan type selection *)

Definition selectPlanType (weeks : Z) : PlanType :=
  if weeks <=? 4 then cram
  else if weeks <=? 8 then short
  else if weeks <=? 16 then standard
  else if weeks <=? 32 then extended
  else long_term.

(** ** Phase generation *)

Definition dist (l p t r : Z) : ContentDistribution.t :=
  ContentDistribution.mk l p t r.

(** [Math.ceil(weeks * c)] and [Math.floor(weeks * c)] for a week count
    and a decimal constant, computed in binary64. *)
Definition ceil_of (weeks : Z) (c : number) : number :=
  Math_ceil (mul (of_Z weeks) c).
Definition floor_of (weeks : Z) (c : number) : number :=
  Math_floor (mul (of_Z weeks) c).

Definition generateCramPhases (weeks : Z) : list Phase.t :=
  if weeks <=? 2 then
    [ Phase.mk "Diagnostic + High-Impact Strategies" 1 1
        "Identify weaknesses and learn key strategies"
        [ "Complete full diagnostic test"; "Learn top 5 math rules";
          "Learn top 5 R&W rules"; "Master elimination technique" ]
        15 (dist 40 30 20 10);
      Phase.mk "Intensive Practice + Final Prep" 2 weeks
        "Targeted practice and test simulation"
        [ "Complete 1 full practice test"; "Focus on top 3 weak areas";
          "Pacing drills"; "Light review before test day" ]
        12 (dist 20 40 30 10) ]
  else
    let half := to_int (Math_ceil (div (of_Z weeks) (of_Z 2))) in
    [ Phase.mk "Assessment + Foundation" 1 half
        "Diagnostic and core content mastery"
        [ "Complete diagnostic test"; "Master foundational math concepts";
          "Master grammar rules"; "Learn SAT strategies" ]
        12 (dist 40 30 15 15);
      Phase.mk "Polish + Peak" (half + 1) weeks
        "Practice tests and final preparation"
        [ "Complete 2 full practice tests"; "Target weak areas";
          "Time management mastery"; "Pre-test preparation" ]
        10 (dist 15 35 40 10) ].

Definition generateShortPhases (weeks : Z) : list Phase.t :=
  let phase1End := floor_of weeks (lit 3 10) in
  let phase2End := floor_of weeks (lit 6 10) in
  let phase3End := floor_of weeks (lit 85 100) in
  [ Phase.mk "Foundation" 1 (to_int (or_else phase1End (of_Z 1)))
      "Diagnosis and core content"
      [ "Complete full diagnostic test"; "Master algebra basics";
        "Master grammar fundamentals";
        "Build reading comprehension strategies" ]
      10 (dist 40 30 15 15);
    Phase.mk "Building"
      (to_int (or_else phase1End (of_Z 1)) + 1)
      (to_int (or_else phase2End (of_Z 3)))
      "Skill development"
      [ "Intermediate math topics"; "Advanced grammar";
        "Evidence-based reading"; "Strategy application" ]
      12 (dist 30 40 15 15);
    Phase.mk "Practice"
      (to_int (or_else phase2End (of_Z 3)) + 1)
      (to_int (or_else phase3End (of_Z (weeks - 1))))
      "Application and testing"
      [ "Full practice tests"; "Error analysis"; "Pacing drills";
        "Weak area targeting" ]
      12 (dist 20 40 30 10);
    Phase.mk "Peak"
      (to_int (or_else phase3End (of_Z (weeks - 1))) + 1)
      weeks
      "Final preparation"
      [ "Light review"; "Final practice test"; "Confidence building";
        "Rest before test day" ]
      8 (dist 10 30 40 20) ].

Definition generateStandardPhases (weeks : Z) : list Phase.t :=
  let end2 := to_int (ceil_of weeks (lit 25 100)) in
  let end3 := to_int (ceil_of weeks (lit 55 100)) in
  let end4 := to_int (ceil_of weeks (lit 80 100)) in
  [ Phase.mk "Assessment" 1 1
      "Comprehensive diagnostic and planning"
      [ "Full proctored diagnostic test"; "Detailed score analysis";
        "Learning style assessment"; "Goal setting" ]
      8 (dist 20 20 50 10);
    Phase.mk "Foundation" 2 end2
      "Core content mastery"
      [ "Algebra fundamentals"; "Grammar rules review";
        "Reading comprehension basics"; "Question type identification" ]
      10 (dist 40 35 10 15);
    Phase.mk "Development" (end2 + 1) end3
      "Full content coverage"
      [ "Advanced math topics"; "Complex passages";
        "Rhetoric and synthesis"; "Strategy development" ]
      12 (dist 35 40 15 10);
    Phase.mk "Strategy" (end3 + 1) end4
      "Strategy and application"
      [ "Test-taking strategies"; "Time management";
        "Elimination techniques"; "Calculator/Desmos mastery" ]
      12 (dist 25 40 25 10);
    Phase.mk "Peak" (end4 + 1) weeks
      "Testing and final prep"
      [ "Multiple full practice tests"; "Error pattern analysis";
        "Confidence building"; "Pre-test routine" ]
      10 (dist 10 35 45 10) ].

Definition generateExtendedPhases (weeks : Z) : list Phase.t :=
  let end1 := to_int (ceil_of weeks (lit 15 100)) in
  let end2 := to_int (ceil_of weeks (lit 35 100)) in
  let end3 := to_int (ceil_of weeks (lit 55 100)) in
  let end4 := to_int (ceil_of weeks (lit 75 100)) in
  let end5 := to_int (ceil_of weeks (lit 90 100)) in
  [ Phase.mk "Assessment & Foundation" 1 end1
      "Comprehensive diagnosis and foundation building"
      [ "Full diagnostic testing"; "Learning style determination";
        "Core Math: Numbers, Algebra I";
        "Core R&W: Grammar, Basic Reading" ]
      8 (dist 45 30 15 10);
    Phase.mk "Core Skill Building" (end1 + 1) end2
      "Content breadth"
      [ "Math: Algebra II, Geometry Basics";
        "R&W: Evidence, Inference, Structure";
        "Strategy: Basic elimination"; "Regular practice tests" ]
      10 (dist 35 40 15 10);
    Phase.mk "Intermediate Mastery" (end2 + 1) end3
      "Content depth"
      [ "Advanced Algebra, Geometry"; "Rhetoric, Complex Passages";
        "Pacing, Bookmarking"; "Full practice tests" ]
      12 (dist 30 40 20 10);
    Phase.mk "Advanced Content" (end3 + 1) end4
      "Complete coverage"
      [ "Trigonometry, Advanced Functions"; "Synthesis, Complex Grammar";
        "Desmos mastery"; "Regular testing" ]
      12 (dist 25 40 25 10);
    Phase.mk "Intensive Application" (end4 + 1) end5
      "Application and practice"
      [ "Mixed content review"; "Heavy practice emphasis";
        "Error pattern remediation"; "Multiple full tests" ]
      14 (dist 15 45 30 10);
    Phase.mk "Peak Performance" (end5 + 1) weeks
      "Peak readiness"
      [ "Strategic review"; "High-frequency content focus";
        "Final practice tests"; "Pre-test preparation" ]
      10 (dist 10 30 45 15) ].

(** [quarterLength] is [Math.floor(weeks / 4)].  Dividing an integer
    below [2^53] by four is exact in binary64, so the floor is the
    integer quotient; [quarterLength_binary64] below checks the two
    against each other. *)
Definition generateLongTermPhases (weeks : Z) : list Phase.t :=
  let quarterLength := weeks / 4 in
  [ Phase.mk "Academic Foundation" 1 quarterLength
      "Fill academic gaps and build learning habits"
      [ "Pre-algebra review if needed"; "Basic grammar intensive";
        "Reading fluency development"; "Study skills training" ]
      6 (dist 50 30 10 10);
    Phase.mk "Core SAT Content" (quarterLength + 1) (quarterLength * 2)
      "Complete SAT curriculum"
      [ "All math domains"; "All R&W domains"; "Strategy introduction";
        "Regular practice tests" ]
      8 (dist 40 35 15 10);
    Phase.mk "Advanced Mastery" (quarterLength * 2 + 1) (quarterLength * 3)
      "Deep skill development"
      [ "Advanced problems"; "Strategy mastery"; "Speed building";
        "Frequent testing" ]
      12 (dist 25 40 25 10);
    Phase.mk "Peak Performance" (quarterLength * 3 + 1) weeks
      "Test-day readiness"
      [ "Intensive practice"; "Simulated testing"; "Final content review";
        "Pre-test preparation" ]
      14 (dist 10 35 45 10) ].

(** The [switch] is exhaustive over [PlanType]; its [default] arm is
    unreachable.  The [scoreGap] argument is not used. *)
Definition generatePhases (planType : PlanType) (totalWeeks : Z)
    (scoreGap : ScoreGap.t) : list Phase.t :=
  match planType with
  | cram => generateCramPhases totalWeeks
  | short => generateShortPhases totalWeeks
  | standard => generateStandardPhases totalWeeks
  | extended => generateExtendedPhases totalWeeks
  | long_term => generateLongTermPhases totalWeeks
  end.

(** ** Weekly plans *)

(** The values [lo, lo+1, ...] taken by the counter of a loop
    [for (i = lo; i <= hi; i++)] with [n = hi - lo + 1] rounds. *)
Fixpoint range (lo : Z) (n : nat) : list Z :=
  match n with
  | O => []
  | S n' => lo :: range (lo + 1) n'
  end.

(** [Array.prototype.slice(a, b)] for indices [0 <= a]. *)
Definition slice {A} (l : list A) (a b : Z) : list A :=
  firstn (Z.to_nat (b - a)) (skipn (Z.to_nat a) l).

(** [String.prototype.includes]. *)
Fixpoint includes (s pat : string) : bool :=
  if prefix pat s then true
  else match s with
       | EmptyString => false
       | String _ s' => includes s' pat
       end.

Module Focus.
Record t := mk { focus : list string; topics : list string }.
End Focus.

Definition getTutoringFocusForPhase (phaseName : string)
    (weekNumber totalWeeks : Z) : Focus.t :=
  if weekNumber =? totalWeeks then
    Focus.mk [ "Test-day preparation"; "Confidence building" ]
      [ "Review commonly missed problems"; "Test-day strategies and timing";
        "Stress management techniques"; "Final Q&A" ]
  else if weekNumber =? 1 then
    Focus.mk [ "Diagnostic review"; "Goal setting" ]
      [ "Review diagnostic results"; "Identify priority skill gaps";
        "Set weekly goals"; "Establish study routine" ]
  else if includes phaseName "Foundation" || includes phaseName "Assessment" then
    Focus.mk [ "Core concepts"; "Foundation building" ]
      [ "Algebra fundamentals"; "Grammar rules mastery";
        "Reading comprehension strategies"; "Question type identification" ]
  else if includes phaseName "Skill Building" || includes phaseName "Development" then
    Focus.mk [ "Skill development"; "Strategy introduction" ]
      [ "Advanced algebra techniques"; "Geometry problem solving";
        "Evidence-based reading"; "Rhetorical analysis" ]
  else if includes phaseName "Mastery" || includes phaseName "Advanced" then
    Focus.mk [ "Advanced content"; "Weak area targeting" ]
      [ "Complex problem types"; "Error pattern analysis";
        "Pacing strategies"; "Desmos calculator usage" ]
  else if includes phaseName "Application" || includes phaseName "Strategy" then
    Focus.mk [ "Test strategies"; "Practice test review" ]
      [ "Practice test analysis"; "Time management refinement";
        "Elimination techniques"; "High-yield content review" ]
  else
    Focus.mk [ "Final review"; "Peak performance" ]
      [ "High-frequency topics review"; "Quick wins identification";
        "Mental preparation"; "Test-day logistics" ].

Definition generateTutoringSessions (sessionsPerWeek : Z) (phase : Phase.t)
    (weekNumber totalWeeks : Z) : list TutoringSession.t :=
  let phaseFocusAreas :=
    getTutoringFocusForPhase (Phase.name phase) weekNumber totalWeeks in
  map (fun i =>
         TutoringSession.mk i TUTORING_SESSION_DURATION
           (Focus.focus phaseFocusAreas)
           (slice (Focus.topics phaseFocusAreas) ((i - 1) * 2) (i * 2)))
      (range 1 (Z.to_nat sessionsPerWeek)).

(** [weekInPhase >= 1] at the only call site, so [startIdx] is never
    negative. *)
Definition generateWeeklyFocus (phase : Phase.t)
    (weekInPhase totalPhaseWeeks : Z) : list string :=
  let begin :=
    if weekInPhase =? 1
    then [ ("Begin " ++ Phase.name phase ++ " phase")%string ]
    else [] in
  let len := Z.of_nat (List.length (Phase.objectives phase)) in
  let objectivesPerWeek :=
    Math_ceil (div (of_Z len) (of_Z totalPhaseWeeks)) in
  let startIdx := mul (of_Z (weekInPhase - 1)) objectivesPerWeek in
  let endIdx := Math_min (add startIdx objectivesPerWeek) (of_Z len) in
  begin ++
  (if ltb startIdx endIdx
   then slice (Phase.objectives phase) (to_int startIdx) (to_int endIdx)
   else []).

Definition generateWeeklyActivities (phase : Phase.t)
    (weekInPhase absoluteWeek totalWeeks : Z) : list Activity.t :=
  let totalMinutes := mul (of_Z (Phase.weeklyHours phase)) (of_Z 60) in
  let d := Phase.contentDistribution phase in
  let learning := ContentDistribution.learning d in
  let practice := ContentDistribution.practice d in
  let testing := ContentDistribution.testing d in
  let review := ContentDistribution.review d in
  let minutes pct :=
    Math_round (div (mul totalMinutes (of_Z pct)) (of_Z 100)) in
  (if 0 <? learning then
     [ Activity.mk act_lesson "Video Lessons & Content" (minutes learning)
         "Watch instructional videos and study content materials" ]
   else []) ++
  (if 0 <? practice then
     [ Activity.mk act_practice "Practice Problems" (minutes practice)
         "Work through targeted practice problems" ]
   else []) ++
  (if 0 <? testing then
     if absoluteWeek =? 1 then
       [ Activity.mk act_diagnostic "Diagnostic Test" (minutes testing)
           "Complete full diagnostic test to identify strengths and weaknesses" ]
     else if absoluteWeek =? totalWeeks then
       [ Activity.mk act_rest "Final Preparation" (minutes testing)
           "Light review and rest before test day" ]
     else
       [ Activity.mk act_test "Practice Test / Section Tests" (minutes testing)
           "Timed practice tests to build endurance and identify gaps" ]
   else []) ++
  (if 0 <? review then
     [ Activity.mk act_review "Review & Flashcards" (minutes review)
         "Review mistakes and use flashcards for retention" ]
   else []).

(** The predicate of [phases.find] for a given week. *)
Definition owns (week : Z) (p : Phase.t) : bool :=
  (Phase.startWeek p <=? week) && (week <=? Phase.endWeek p).

(** One round of the loop: the plans pushed for [week] (none when no
    phase owns it: [continue]). *)
Definition weeklyPlanFor (phases : list Phase.t)
    (totalWeeks tutoringSessionsPerWeek week : Z) : list WeeklyPlan.t :=
  match find (owns week) phases with
  | None => []
  | Some phase =>
      let weekInPhase := week - Phase.startWeek phase + 1 in
      let totalPhaseWeeks := Phase.endWeek phase - Phase.startWeek phase + 1 in
      let activities :=
        generateWeeklyActivities phase weekInPhase week totalWeeks in
      let tutoringSessions :=
        generateTutoringSessions tutoringSessionsPerWeek phase week totalWeeks in
      let tutoringHours :=
        div (of_Z (tutoringSessionsPerWeek * TUTORING_SESSION_DURATION))
            (of_Z 60) in
      [ WeeklyPlan.mk week (Phase.name phase)
          (generateWeeklyFocus phase weekInPhase totalPhaseWeeks)
          activities tutoringSessions
          (Phase.weeklyHours phase)
          (Math_round (mul (of_Z (Phase.weeklyHours phase)) (of_Z 8)))
          (add (of_Z (Phase.weeklyHours phase)) tutoringHours) ]
  end.

Definition generateWeeklyPlans (phases : list Phase.t)
    (totalWeeks tutoringSessionsPerWeek : Z) : list WeeklyPlan.t :=
  flat_map (weeklyPlanFor phases totalWeeks tutoringSessionsPerWeek)
           (range 1 (Z.to_nat totalWeeks)).

(** ** Intensity recommendation *)

Definition recommendIntensity (weeks : Z) (scoreGap : number)
    (tutoringSessionsPerWeek : Z) : string * number :=
  let tutoringMultiplier := TUTORING_MULTIPLIERS tutoringSessionsPerWeek in
  let requiredWeeklyGain := div scoreGap (of_Z weeks) in
  let effectiveGainNeeded := div requiredWeeklyGain tutoringMultiplier in
  if leb effectiveGainNeeded (of_Z 8) then
    ("light", lookup WEEKLY_HOURS "light")
  else if leb effectiveGainNeeded (of_Z 15) then
    ("moderate", lookup WEEKLY_HOURS "moderate")
  else if leb effectiveGainNeeded (of_Z 22) then
    ("intensive", lookup WEEKLY_HOURS "intensive")
  else
    ("very_intensive", lookup WEEKLY_HOURS "very_intensive").

(** ** Timeline and plan assembly

    The clock and the time zone are the environment of the program:
    [today] and [stamp] are the two readings of [new Date()], and
    [midnight] is [setHours(0, 0, 0, 0)], which moves a time value to
    local midnight of its day. *)

Section Pipeline.

Variable midnight : Date -> Date.
Variable today : Date.
Variable stamp : Date.

Definition calculateTimeline (testDate : Date) : Timeline.t :=
  let startDate := midnight today in
  let testDateNormalized := midnight testDate in
  let totalDays :=
    to_int (Math_ceil (div (of_Z (testDateNormalized - startDate))
                           (of_Z (1000 * 60 * 60 * 24)))) in
  let totalWeeks := to_int (Math_floor (div (of_Z totalDays) (of_Z 7))) in
  let effectiveWeeks := Z.max 1 (totalWeeks - 1) in
  Timeline.mk startDate testDateNormalized totalDays totalWeeks effectiveWeeks.

Definition generateStudyPlan (input : UserInput.t) : StudyPlan.t :=
  let timeline := calculateTimeline (UserInput.testDate input) in
  let scoreGap :=
    calculateScoreGap (UserInput.currentScore input)
                      (UserInput.targetScore input) in
  let '(intensity, weeklyHours) :=
    recommendIntensity (Timeline.effectiveWeeks timeline)
      (ScoreGap.totalGap scoreGap)
      (UserInput.tutoringSessionsPerWeek input) in
  let feasibility :=
    assessFeasibility timeline scoreGap intensity
      (UserInput.tutoringSessionsPerWeek input) in
  let planType := selectPlanType (Timeline.effectiveWeeks timeline) in
  let phases :=
    generatePhases planType (Timeline.effectiveWeeks timeline) scoreGap in
  let weeklyPlans :=
    generateWeeklyPlans phases (Timeline.effectiveWeeks timeline)
      (UserInput.tutoringSessionsPerWeek input) in
  let projectedScore :=
    Math_min (of_Z 1600)
      (mul (Math_round
              (div (add (UserInput.currentScore input)
                        (FeasibilityAssessment.projectedImprovement feasibility))
                   (of_Z 10)))
           (of_Z 10)) in
  let tutoringMultiplier :=
    TUTORING_MULTIPLIERS (UserInput.tutoringSessionsPerWeek input) in
  let tutoringHoursPerWeek :=
    div (of_Z (UserInput.tutoringSessionsPerWeek input
               * TUTORING_SESSION_DURATION))
        (of_Z 60) in
  let totalTutoringSessions :=
    UserInput.tutoringSessionsPerWeek input
    * Timeline.effectiveWeeks timeline in
  StudyPlan.mk stamp
    (Timeline.startDate timeline) (Timeline.testDate timeline)
    (Timeline.effectiveWeeks timeline)
    (UserInput.currentScore input) (UserInput.targetScore input)
    projectedScore scoreGap planType phases weeklyPlans feasibility
    intensity weeklyHours
    (Tutoring.mk (UserInput.tutoringSessionsPerWeek input)
       totalTutoringSessions tutoringHoursPerWeek tutoringMultiplier).

End Pipeline.

(** ** Vocabulary of the properties *)

(** The order [cram < short < standard < extended < long_term]. *)
Definition planRank (p : PlanType) : Z :=
  match p with
  | cram => 0
  | short => 1
  | standard => 2
  | extended => 3
  | long_term => 4
  end.

(** The first phase of the list starts at week [s]. *)
Definition startsAt (s : Z) (l : list Phase.t) : Prop :=
  match l with
  | [] => False
  | p :: _ => Phase.startWeek p = s
  end.

(** Each phase ends one week before the next one starts. *)
Fixpoint contiguous (l : list Phase.t) : Prop :=
  match l with
  | p :: (q :: _) as rest =>
      Phase.endWeek p + 1 = Phase.startWeek q /\ contiguous rest
  | _ => True
  end.

(** The last phase of the list ends at week [w]. *)
Fixpoint endsAt (w : Z) (l : list Phase.t) : Prop :=
  match l with
  | [] => False
  | [p] => Phase.endWeek p = w
  | _ :: rest => endsAt w rest
  end.

Definition percentagesSum (p : Phase.t) : Z :=
  let d := Phase.contentDistribution p in
  ContentDistribution.learning d + ContentDistribution.practice d
  + ContentDistribution.testing d + ContentDistribution.review d.

Definition spanOrdered (p : Phase.t) : Prop :=
  Phase.startWeek p <= Phase.endWeek p.

(** A sample environment: UTC, where local midnight is the start of the
    day of the time value. *)
Definition utc_midnight (t : Date) : Date := t - t mod 86400000.

(** The plan of a week names a phase of the list whose span holds it. *)
Definition ownedBy (phases : list Phase.t) (wp : WeeklyPlan.t) : Prop :=
  exists p, In p phases
            /\ WeeklyPlan.phase wp = Phase.name p
            /\ Phase.startWeek p <= WeeklyPlan.weekNumber wp <= Phase.endWeek p.

(** The figures of the specification, written down independently of the
    tables of the program: base weekly rates 8/15/22/30, caps
    150/250/350/450 and tutoring multipliers 1.20/1.30/1.35/1.40. *)
Definition spec_baseRate (tier : string) : number :=
  if String.eqb tier "light" then of_Z 8
  else if String.eqb tier "moderate" then of_Z 15
  else if String.eqb tier "intensive" then of_Z 22
  else of_Z 30.

Definition spec_baseCap (tier : string) : number :=
  if String.eqb tier "light" then of_Z 150
  else if String.eqb tier "moderate" then of_Z 250
  else if String.eqb tier "intensive" then of_Z 350
  else of_Z 450.

Definition spec_multiplier (tutoring : Z) : number :=
  if tutoring =? 1 then lit 120 100
  else if tutoring =? 2 then lit 130 100
  else if tutoring =? 3 then lit 135 100
  else lit 140 100.

(** [weeklyRate = baseRate x multiplier], [cap = baseCap x multiplier],
    [projected = min(effectiveWeeks x weeklyRate, cap)]. *)
Definition spec_weeklyRate (tier : string) (tutoring : Z) : number :=
  mul (spec_baseRate tier) (spec_multiplier tutoring).

Definition spec_cap (tier : string) (tutoring : Z) : number :=
  mul (spec_baseCap tier) (spec_multiplier tutoring).

Definition spec_projected (weeks : Z) (tier : string) (tutoring : Z) : number :=
  Math_min (mul (of_Z weeks) (spec_weeklyRate tier tutoring))
           (spec_cap tier tutoring).




(** The focus set of the last week of a plan. *)
Definition lastWeekFocus : Focus.t :=
  Focus.mk [ "Test-day preparation"; "Confidence building" ]
    [ "Review commonly missed problems"; "Test-day strategies and timing";
      "Stress management techniques"; "Final Q&A" ].

(** A session draws on the focus set [f]: it carries its focus tags and
    the two topics at positions [2(i-1)] and [2(i-1)+1] for session [i]. *)
Definition sessionUses (f : Focus.t) (s : TutoringSession.t) : Prop :=
  TutoringSession.focus s = Focus.focus f
  /\ TutoringSession.suggestedTopics s
     = slice (Focus.topics f)
             ((TutoringSession.sessionNumber s - 1) * 2)
             (TutoringSession.sessionNumber s * 2).

(** Sign classes of numbers: [nonneg] holds of [+0], positive finite
    numbers and plus infinity; [negative] of [-0], negative finite
    numbers and minus infinity.  NaN is in neither. *)
Definition nonneg (x : number) : Prop :=
  match x with
  | S754_zero false | S754_infinity false | S754_finite false _ _ => True
  | _ => False
  end.

Definition negative (x : number) : Prop :=
  match x with
  | S754_zero true | S754_infinity true | S754_finite true _ _ => True
  | _ => False
  end.

(** The two shapes a projection can take: zero or a positive finite
    number. *)
Definition finite_nonneg (x : number) : Prop :=
  x = S754_zero false \/ exists m e, x = S754_finite false m e.

(** ** Vocabulary of the further properties *)


(** Zero, a negative number or minus infinity. *)
Definition at_most_zero (x : number) : Prop :=
  match x with
  | S754_zero _ | S754_infinity true | S754_finite true _ _ => True
  | _ => False
  end.

(** The five difficulty labels, from the easiest. *)
Definition difficultyRank (d : Difficulty) : Z :=
  match d with
  | small => 0
  | moderate => 1
  | significant => 2
  | large => 3
  | very_large => 4
  end.

(** The position of a tier in [intensityLevels] ([-1] outside it). *)
Definition tierRank (tier : string) : Z := indexOf intensityLevels tier.

(** The projection with one more tutoring session a week, as the
    [add_tutoring] branch computes it (weeks times base rate first). *)
Definition projectedWithMoreTutoring (weeks : Z) (tier : string) (t : Z) : number :=
  Math_min (mul (mul (of_Z weeks) (lookup WEEKLY_IMPROVEMENT_RATES tier))
                (TUTORING_MULTIPLIERS (t + 1)))
           (mul (lookup MAX_IMPROVEMENTS tier) (TUTORING_MULTIPLIERS (t + 1))).

(** The minutes [generateWeeklyActivities] gives a category holding
    [pct] percent of a week of [hours] hours. *)
Definition minutesOf (hours pct : Z) : number :=
  Math_round (div (mul (mul (of_Z hours) (of_Z 60)) (of_Z pct)) (of_Z 100)).

(** The share of a category comes out as a whole number of minutes. *)
Definition wholeShare (hours pct : Z) : Prop :=
  0 < pct /\ (hours * 60 * pct) mod 100 = 0
  /\ minutesOf hours pct = of_Z (hours * 60 * pct / 100).

(** What every generated phase provides to the weekly plans: literal
    hours, four objectives, four positive shares adding up to 100, each a
    whole number of minutes. *)
Definition phaseFacts (p : Phase.t) : Prop :=
  let h := Phase.weeklyHours p in
  let d := Phase.contentDistribution p in
  In h [6; 8; 10; 12; 14; 15]
  /\ List.length (Phase.objectives p) = 4%nat
  /\ percentagesSum p = 100
  /\ wholeShare h (ContentDistribution.learning d)
  /\ wholeShare h (ContentDistribution.practice d)
  /\ wholeShare h (ContentDistribution.testing d)
  /\ wholeShare h (ContentDistribution.review d).

(** The type of the testing activity of a week. *)
Definition testingType (week totalWeeks : Z) : ActivityType :=
  if week =? 1 then act_diagnostic
  else if week =? totalWeeks then act_rest
  else act_test.

(** The check behind [calculateTimeline_whole_days]: the day and week
    counts for a span of [d] days plus [r] milliseconds. *)
Definition timelineAgrees (r d : Z) : bool :=
  let tl := calculateTimeline (fun x => x) 0 (d * 86400000 + r) in
  (Timeline.totalDays tl =? (if 0 <? r then d + 1 else d))
  && (Timeline.totalWeeks tl =? Timeline.totalDays tl / 7).

(** ** The page: validation before generation ([page.tsx]) *)

Module Home.
End Home.




Section Page.

Variable midnight : Date -> Date.
Variable clock : Date.   (* [new Date()] read by the validation *)
Variable today : Date.
Variable stamp : Date.


End Page.

(** ** Plan type selection *)

Lemma selectPlanType_cases (w : Z) :
  (w <= 4 /\ selectPlanType w = cram)
  \/ (5 <= w <= 8 /\ selectPlanType w = short)
  \/ (9 <= w <= 16 /\ selectPlanType w = standard)
  \/ (17 <= w <= 32 /\ selectPlanType w = extended)
  \/ (33 <= w /\ selectPlanType w = long_term).
Proof.
  unfold selectPlanType.
  destruct (Z.leb_spec w 4); [left; split; [lia | reflexivity] |].
  destruct (Z.leb_spec w 8); [right; left; split; [lia | reflexivity] |].
  destruct (Z.leb_spec w 16);
    [right; right; left; split; [lia | reflexivity] |].
  destruct (Z.leb_spec w 32);
    [right; right; right; left; split; [lia | reflexivity] |].
  right; right; right; right; split; [lia | reflexivity].
Qed.

(** C8.  [selectPlanType] is a monotone step function of the week count
    with its steps exactly after weeks 4, 8, 16 and 32. *)
Theorem selectPlanType_step_function (w : Z) (Hw : 1 <= w) :
  (w <= 4 -> selectPlanType w = cram)
  /\ (5 <= w <= 8 -> selectPlanType w = short)
  /\ (9 <= w <= 16 -> selectPlanType w = standard)
  /\ (17 <= w <= 32 -> selectPlanType w = extended)
  /\ (33 <= w -> selectPlanType w = long_term)
  /\ (forall w', w <= w' ->
        planRank (selectPlanType w) <= planRank (selectPlanType w'))
  /\ selectPlanType 4 = cram /\ selectPlanType 5 = short
  /\ selectPlanType 32 = extended /\ selectPlanType 33 = long_term.
Proof.
  repeat split; try reflexivity.
  1-5: intros; destruct (selectPlanType_cases w) as [H'|[H'|[H'|[H'|H']]]];
       destruct H' as [Hr ->]; try reflexivity; lia.
  intros w' Hle.
  destruct (selectPlanType_cases w) as [H1|[H1|[H1|[H1|H1]]]];
    destruct (selectPlanType_cases w') as [H2|[H2|[H2|[H2|H2]]]];
    destruct H1 as [R1 ->]; destruct H2 as [R2 ->]; simpl; lia.
Qed.

Lemma selectPlanType_step_function_witness :
  1 <= 8
  /\ (5 <= 8 <= 8 -> selectPlanType 8 = short)
  /\ (forall w', 8 <= w' ->
        planRank (selectPlanType 8) <= planRank (selectPlanType w')).
Proof.
  split; [lia |].
  pose proof (selectPlanType_step_function 8 ltac:(lia)) as H.
  split; [apply H | apply H].
Defined.

(** ** Phase generation *)

(** Case analysis on an integer known to lie in a short interval. *)
Ltac enumerate w lo hi :=
  let rec go k n :=
    lazymatch n with
    | O => exfalso; lia
    | S ?n' =>
        let H := fresh "E" in
        destruct (Z.eq_dec w k) as [H | H];
        [ subst w | let k' := eval cbv in (k + 1) in go k' n' ]
    end in
  let n := eval cbv in (Z.to_nat (hi - lo + 1)) in
  go lo n.

Lemma quarter_bounds (w : Z) : 4 * (w / 4) <= w < 4 * (w / 4) + 4.
Proof.
  pose proof (Z.div_mod w 4 ltac:(lia)).
  pose proof (Z.mod_pos_bound w 4 ltac:(lia)).
  lia.
Qed.

(** [Math.floor(weeks / 4)] computed in binary64 agrees with the integer
    quotient used in [generateLongTermPhases] (checked on the first
    thousand long-term week counts). *)
Lemma quarterLength_binary64 :
  forallb (fun w => to_int (Math_floor (div (of_Z w) (of_Z 4))) =? w / 4)
          (range 33 1000) = true.
Proof. vm_compute. reflexivity. Qed.

(** The phases of a plan tile the weeks: the first starts at week 1, each
    ends where the next begins, the last ends at the final week. *)
Lemma phases_tile (w : Z) (g : ScoreGap.t) :
  1 <= w ->
  let l := generatePhases (selectPlanType w) w g in
  startsAt 1 l /\ contiguous l /\ endsAt w l.
Proof.
  intros Hw.
  destruct (selectPlanType_cases w) as [H|[H|[H|[H|H]]]];
    destruct H as [Hr ->]; unfold generatePhases.
  - enumerate w 1 4; vm_compute; repeat split.
  - enumerate w 5 8; vm_compute; repeat split.
  - enumerate w 9 16; vm_compute; repeat split.
  - enumerate w 17 32; vm_compute; repeat split.
  - unfold generateLongTermPhases.
    cbn [startsAt contiguous endsAt Phase.startWeek Phase.endWeek].
    repeat split; lia.
Qed.

Lemma phases_percentages (p : PlanType) (w : Z) (g : ScoreGap.t) :
  Forall (fun ph => percentagesSum ph = 100) (generatePhases p w g).
Proof.
  destruct p; unfold generatePhases.
  - unfold generateCramPhases. destruct (w <=? 2); repeat constructor.
  - repeat constructor.
  - repeat constructor.
  - repeat constructor.
  - repeat constructor.
Qed.

(** C3.  For every week count the generated phases are contiguous and
    cover the weeks: the first phase starts at week 1, every phase ends
    one week before its successor starts, the last phase ends at the
    final week; and the four percentages of every phase add up to 100. *)
Theorem generatePhases_contiguous_covering (w : Z) (g : ScoreGap.t)
    (Hw : 1 <= w) :
  let l := generatePhases (selectPlanType w) w g in
  startsAt 1 l /\ contiguous l /\ endsAt w l
  /\ Forall (fun ph => percentagesSum ph = 100) l.
Proof.
  intros l.
  destruct (phases_tile w g Hw) as (H1 & H2 & H3).
  repeat split; try assumption.
  apply phases_percentages.
Qed.

Lemma generatePhases_contiguous_covering_witness :
  1 <= 19
  /\ (let l := generatePhases (selectPlanType 19) 19
                 (calculateScoreGap (of_Z 1080) (of_Z 1350)) in
      startsAt 1 l /\ contiguous l /\ endsAt 19 l
      /\ Forall (fun ph => percentagesSum ph = 100) l).
Proof.
  split; [lia |].
  apply (generatePhases_contiguous_covering 19); lia.
Defined.

(** From two weeks on no generated span is inverted. *)
Lemma phases_ordered_from_two (w : Z) (g : ScoreGap.t) :
  2 <= w -> Forall spanOrdered (generatePhases (selectPlanType w) w g).
Proof.
  intros Hw.
  destruct (selectPlanType_cases w) as [H|[H|[H|[H|H]]]];
    destruct H as [Hr ->]; unfold generatePhases.
  - enumerate w 2 4; repeat constructor; vm_compute; discriminate.
  - enumerate w 5 8; repeat constructor; vm_compute; discriminate.
  - enumerate w 9 16; repeat constructor; vm_compute; discriminate.
  - enumerate w 17 32; repeat constructor; vm_compute; discriminate.
  - pose proof (quarter_bounds w).
    unfold generateLongTermPhases.
    repeat constructor; unfold spanOrdered; cbn [Phase.startWeek Phase.endWeek];
      lia.
Qed.

(** C2 at [effectiveWeeks = 1].  The one-week plan is a cram plan whose
    second phase spans weeks 2 to 1: its start lies after its end. *)
Theorem cram_one_week_inverted_span (g : ScoreGap.t) :
  selectPlanType 1 = cram
  /\ map (fun p => (Phase.startWeek p, Phase.endWeek p))
         (generatePhases (selectPlanType 1) 1 g) = [(1, 1); (2, 1)]
  /\ ~ Forall spanOrdered (generatePhases (selectPlanType 1) 1 g).
Proof.
  repeat split.
  intros H. inversion H as [| p l H1 H2]; subst.
  inversion H2 as [| q l' H3 H4]; subst.
  vm_compute in H3. apply H3. reflexivity.
Qed.

(** ** Weekly plans *)

(** In a tiling of the weeks [s .. w] every week has an owning phase. *)
Lemma tile_owned (l : list Phase.t) :
  forall s w week,
    startsAt s l -> contiguous l -> endsAt w l -> s <= week <= w ->
    exists p, find (owns week) l = Some p.
Proof.
  induction l as [| p rest IH]; intros s w week Hs Hc He Hr.
  - destruct Hs.
  - simpl in Hs. cbn [find]. unfold owns at 1.
    destruct (Z.leb_spec (Phase.startWeek p) week) as [_ | Hlt]; [| lia].
    destruct (Z.leb_spec week (Phase.endWeek p)) as [Hin | Hout].
    + exists p. reflexivity.
    + cbn [andb]. destruct rest as [| q rest'].
      * simpl in He. lia.
      * destruct Hc as [Hpq Hc'].
        apply (IH (Phase.startWeek q) w week).
        -- reflexivity.
        -- exact Hc'.
        -- exact He.
        -- lia.
Qed.

Lemma weekly_loop (phases : list Phase.t) (W t : Z) (n : nat) :
  forall lo,
    (forall week, lo <= week < lo + Z.of_nat n ->
                  exists p, find (owns week) phases = Some p) ->
    let plans := flat_map (weeklyPlanFor phases W t) (range lo n) in
    map WeeklyPlan.weekNumber plans = range lo n
    /\ Forall (ownedBy phases) plans.
Proof.
  induction n as [| n IH]; intros lo Hown.
  - split; [reflexivity | constructor].
  - destruct (Hown lo ltac:(lia)) as [p Hp].
    destruct (IH (lo + 1)) as [Hnum Hall].
    { intros week Hweek. apply Hown. lia. }
    cbv zeta in Hnum, Hall |- *.
    cbn [range flat_map].
    remember (flat_map (weeklyPlanFor phases W t) (range (lo + 1) n)) as tl.
    unfold weeklyPlanFor. rewrite Hp.
    cbv zeta. cbn [app map WeeklyPlan.weekNumber].
    split.
    + f_equal. exact Hnum.
    + constructor; [| exact Hall].
      apply find_some in Hp. destruct Hp as [Hin Hspan].
      unfold owns in Hspan. apply andb_prop in Hspan.
      destruct Hspan as [Ha Hb].
      apply Z.leb_le in Ha. apply Z.leb_le in Hb.
      exists p. cbn [WeeklyPlan.phase WeeklyPlan.weekNumber].
      repeat split; assumption.
Qed.

Lemma range_length (n : nat) : forall lo, List.length (range lo n) = n.
Proof.
  induction n as [| n IH]; intros lo; [reflexivity |].
  simpl. rewrite IH. reflexivity.
Qed.

(** C4.  For every week count the weekly plans are exactly one per week,
    numbered 1 to [effectiveWeeks] in order, each carrying the name of a
    generated phase whose span contains its week; the list is never
    empty. *)
Theorem generateWeeklyPlans_one_per_week (w t : Z) (g : ScoreGap.t)
    (Hw : 1 <= w) :
  let phases := generatePhases (selectPlanType w) w g in
  let plans := generateWeeklyPlans phases w t in
  List.length plans = Z.to_nat w
  /\ map WeeklyPlan.weekNumber plans = range 1 (Z.to_nat w)
  /\ Forall (ownedBy phases) plans
  /\ plans <> [].
Proof.
  intros phases plans.
  destruct (phases_tile w g Hw) as (H1 & H2 & H3).
  destruct (weekly_loop phases w t (Z.to_nat w) 1) as [Hnum Hall].
  { intros week Hweek. apply (tile_owned phases 1 w week H1 H2 H3). lia. }
  fold (generateWeeklyPlans phases w t) in Hnum, Hall. fold plans in Hnum, Hall.
  assert (Hlen : List.length plans = Z.to_nat w).
  { rewrite <- (length_map WeeklyPlan.weekNumber), Hnum. apply range_length. }
  repeat split; try assumption.
  intros Hnil. rewrite Hnil in Hlen. simpl in Hlen. lia.
Qed.

Lemma generateWeeklyPlans_one_per_week_witness :
  1 <= 1
  /\ (let phases := generatePhases (selectPlanType 1) 1
                      (calculateScoreGap (of_Z 1000) (of_Z 1200)) in
      let plans := generateWeeklyPlans phases 1 4 in
      List.length plans = Z.to_nat 1
      /\ map WeeklyPlan.weekNumber plans = range 1 (Z.to_nat 1)
      /\ Forall (ownedBy phases) plans
      /\ plans <> []).
Proof.
  split; [lia |].
  apply (generateWeeklyPlans_one_per_week 1 4); lia.
Defined.

(** C10.  In a one-week plan the single week is both first and last.
    Its testing activity is the first-week one (a diagnostic named
    "Diagnostic Test"), while every tutoring session of the week draws on
    the last-week focus set. *)
Theorem one_week_plan_first_and_last (t : Z) (g : ScoreGap.t)
    (Ht : 1 <= t <= 4) :
  exists wp,
    generateWeeklyPlans (generatePhases (selectPlanType 1) 1 g) 1 t = [wp]
    /\ WeeklyPlan.weekNumber wp = 1
    /\ map (fun a => (Activity.type a, Activity.name a))
           (WeeklyPlan.activities wp)
       = [ (act_lesson, "Video Lessons & Content");
           (act_practice, "Practice Problems");
           (act_diagnostic, "Diagnostic Test");
           (act_review, "Review & Flashcards") ]
    /\ getTutoringFocusForPhase (WeeklyPlan.phase wp) 1 1 = lastWeekFocus
    /\ map TutoringSession.sessionNumber (WeeklyPlan.tutoringSessions wp)
       = range 1 (Z.to_nat t)
    /\ Forall (sessionUses lastWeekFocus) (WeeklyPlan.tutoringSessions wp).
Proof.
  enumerate t 1 4; eexists; (split; [vm_compute; reflexivity |]);
    repeat split; repeat constructor.
Qed.

Lemma one_week_plan_first_and_last_witness :
  1 <= 3 <= 4
  /\ exists wp,
       generateWeeklyPlans
         (generatePhases (selectPlanType 1) 1
            (calculateScoreGap (of_Z 1000) (of_Z 1200))) 1 3 = [wp]
       /\ WeeklyPlan.weekNumber wp = 1
       /\ map (fun a => (Activity.type a, Activity.name a))
              (WeeklyPlan.activities wp)
          = [ (act_lesson, "Video Lessons & Content");
              (act_practice, "Practice Problems");
              (act_diagnostic, "Diagnostic Test");
              (act_review, "Review & Flashcards") ]
       /\ getTutoringFocusForPhase (WeeklyPlan.phase wp) 1 1 = lastWeekFocus
       /\ map TutoringSession.sessionNumber (WeeklyPlan.tutoringSessions wp)
          = range 1 (Z.to_nat 3)
       /\ Forall (sessionUses lastWeekFocus) (WeeklyPlan.tutoringSessions wp).
Proof.
  split; [lia |].
  apply (one_week_plan_first_and_last 3); lia.
Defined.

(** ** The reference scenario *)

(** C1, as the program behaves.  With current score 1080, target 1350,
    two tutoring sessions a week and 19 effective weeks, the plan has a
    gap of 270 classified as "large", plan type "extended", projected
    score 1410, and is feasible. *)
Theorem generateStudyPlan_reference_scenario
    (midnight : Date -> Date) (today stamp : Date) (input : UserInput.t)
    (Hweeks : Timeline.effectiveWeeks
                (calculateTimeline midnight today (UserInput.testDate input))
              = 19)
    (Hcurrent : UserInput.currentScore input = of_Z 1080)
    (Htarget : UserInput.targetScore input = of_Z 1350)
    (Htutoring : UserInput.tutoringSessionsPerWeek input = 2) :
  let plan := generateStudyPlan midnight today stamp input in
  ScoreGap.totalGap (StudyPlan.scoreGap plan) = of_Z 270
  /\ ScoreGap.difficulty (StudyPlan.scoreGap plan) = large
  /\ StudyPlan.planType plan = extended
  /\ StudyPlan.projectedScore plan = of_Z 1410
  /\ FeasibilityAssessment.isFeasible (StudyPlan.feasibility plan) = true.
Proof.
  unfold generateStudyPlan.
  rewrite Hcurrent, Htarget, Htutoring.
  destruct (calculateTimeline midnight today (UserInput.testDate input))
    as [sd td days tw ew].
  simpl in Hweeks. subst ew.
  vm_compute. repeat split.
Qed.

Lemma generateStudyPlan_reference_scenario_witness :
  let input :=
    UserInput.mk (140 * 86400000) (of_Z 1080) (of_Z 1350) 2 in
  Timeline.effectiveWeeks
    (calculateTimeline utc_midnight 0 (UserInput.testDate input)) = 19
  /\ UserInput.currentScore input = of_Z 1080
  /\ UserInput.targetScore input = of_Z 1350
  /\ UserInput.tutoringSessionsPerWeek input = 2
  /\ (let plan := generateStudyPlan utc_midnight 0 0 input in
      ScoreGap.totalGap (StudyPlan.scoreGap plan) = of_Z 270
      /\ ScoreGap.difficulty (StudyPlan.scoreGap plan) = large
      /\ StudyPlan.planType plan = extended
      /\ StudyPlan.projectedScore plan = of_Z 1410
      /\ FeasibilityAssessment.isFeasible (StudyPlan.feasibility plan) = true).
Proof.
  intros input.
  split; [vm_compute; reflexivity |].
  split; [reflexivity |]. split; [reflexivity |]. split; [reflexivity |].
  apply (generateStudyPlan_reference_scenario utc_midnight 0 0 input);
    vm_compute; reflexivity.
Defined.

(** The example output of the README for the same scenario: 19 weeks,
    67% confidence, 6.5 hours of self-study and 2 hours of tutoring a
    week, 38 sessions in total, a 30% boost. *)
Example readme_example_output :
  let input :=
    UserInput.mk (140 * 86400000) (of_Z 1080) (of_Z 1350) 2 in
  let plan := generateStudyPlan utc_midnight 0 0 input in
  StudyPlan.totalWeeks plan = 19
  /\ FeasibilityAssessment.confidence (StudyPlan.feasibility plan) = of_Z 67
  /\ StudyPlan.studyIntensity plan = "moderate"
  /\ StudyPlan.weeklyHoursRecommended plan = lit 65 10
  /\ Tutoring.hoursPerWeek (StudyPlan.tutoring plan) = of_Z 2
  /\ Tutoring.totalSessions (StudyPlan.tutoring plan) = 38
  /\ Tutoring.multiplierApplied (StudyPlan.tutoring plan) = lit 130 100.
Proof. vm_compute. repeat split. Qed.

(** The sample week of the README: week 4 lies in "Core Skill Building",
    with 3.5, 4, 1.5 and 1 hours of activities and 12 hours in total. *)
Example readme_sample_week :
  let input :=
    UserInput.mk (140 * 86400000) (of_Z 1080) (of_Z 1350) 2 in
  let plan := generateStudyPlan utc_midnight 0 0 input in
  exists wp,
    nth_error (StudyPlan.weeklyPlans plan) 3 = Some wp
    /\ WeeklyPlan.weekNumber wp = 4
    /\ WeeklyPlan.phase wp = "Core Skill Building"
    /\ map Activity.duration (WeeklyPlan.activities wp)
       = [of_Z 210; of_Z 240; of_Z 90; of_Z 60]
    /\ map TutoringSession.suggestedTopics (WeeklyPlan.tutoringSessions wp)
       = [ [ "Advanced algebra techniques"; "Geometry problem solving" ];
           [ "Evidence-based reading"; "Rhetorical analysis" ] ]
    /\ WeeklyPlan.totalHoursWithTutoring wp = of_Z 12.
Proof. eexists. split; [vm_compute; reflexivity | repeat split]. Qed.

(** C1 as stated fails on the difficulty: a gap of 270 lies above the
    "significant" bound of 250. *)
Lemma reference_scenario_not_significant :
  let input :=
    UserInput.mk (140 * 86400000) (of_Z 1080) (of_Z 1350) 2 in
  let plan := generateStudyPlan utc_midnight 0 0 input in
  Timeline.effectiveWeeks
    (calculateTimeline utc_midnight 0 (UserInput.testDate input)) = 19
  /\ ~ (ScoreGap.totalGap (StudyPlan.scoreGap plan) = of_Z 270
        /\ ScoreGap.difficulty (StudyPlan.scoreGap plan) = significant
        /\ StudyPlan.planType plan = extended
        /\ StudyPlan.projectedScore plan = of_Z 1410
        /\ FeasibilityAssessment.isFeasible (StudyPlan.feasibility plan)
           = true).
Proof.
  split; [vm_compute; reflexivity |].
  intros (_ & Hd & _). vm_compute in Hd. discriminate Hd.
Qed.

(** ** The placeholder score of [adjust_target] *)

(** C7 at a failing input.  For a student at 1200 aiming at 1600 with one
    session a week and one effective week the plan is infeasible with a
    projected improvement of 36, and [adjust_target] proposes 1040, the
    rounding of [36 + 1000]; the caller's score gives 1240. *)
Theorem adjust_target_uses_placeholder_score :
  let input := UserInput.mk (14 * 86400000) (of_Z 1200) (of_Z 1600) 1 in
  let fa := StudyPlan.feasibility (generateStudyPlan utc_midnight 0 0 input) in
  FeasibilityAssessment.isFeasible fa = false
  /\ FeasibilityAssessment.projectedImprovement fa = of_Z 36
  /\ map (fun r => (Recommendation.type r, Recommendation.details r))
         (FeasibilityAssessment.recommendations fa)
     = [ (extend_timeline, [ ("additionalWeeks", VNum (of_Z 11)) ]);
         (adjust_target, [ ("achievableScore", VNum (of_Z 1040)) ]) ]
  /\ mul (Math_round
            (div (add (FeasibilityAssessment.projectedImprovement fa)
                      (UserInput.currentScore input))
                 (of_Z 10)))
         (of_Z 10) = of_Z 1240.
Proof. vm_compute. repeat split. Qed.

(** ** Feasibility assessment *)

Lemma lookup_rate (tier : string) :
  In tier intensityLevels ->
  lookup WEEKLY_IMPROVEMENT_RATES tier = spec_baseRate tier.
Proof.
  intros [<- | [<- | [<- | [<- | []]]]]; reflexivity.
Qed.

Lemma lookup_cap (tier : string) :
  In tier intensityLevels ->
  lookup MAX_IMPROVEMENTS tier = spec_baseCap tier.
Proof.
  intros [<- | [<- | [<- | [<- | []]]]]; reflexivity.
Qed.

Lemma multiplier_table (t : Z) :
  1 <= t <= 4 -> TUTORING_MULTIPLIERS t = spec_multiplier t.
Proof.
  intros Ht. enumerate t 1 4; reflexivity.
Qed.

(** In binary64 the grouping of the product matters: the program
    multiplies the week count by the already multiplied weekly rate. *)
Example projection_grouping :
  mul (of_Z 3) (mul (of_Z 15) (lit 135 100)) = lit 6075 100
  /\ mul (mul (of_Z 3) (of_Z 15)) (lit 135 100) <> lit 6075 100.
Proof. split; [reflexivity | vm_compute; discriminate]. Qed.

(** The projection computed by [assessFeasibility], whatever the branch. *)
Lemma assessFeasibility_projected (tl : Timeline.t) (g : ScoreGap.t)
    (tier : string) (t : Z) :
  In tier intensityLevels -> 1 <= t <= 4 ->
  FeasibilityAssessment.projectedImprovement (assessFeasibility tl g tier t)
  = spec_projected (Timeline.effectiveWeeks tl) tier t.
Proof.
  intros Htier Ht. unfold assessFeasibility. cbv zeta.
  rewrite (lookup_rate tier Htier), (lookup_cap tier Htier),
    (multiplier_table t Ht).
  fold (spec_weeklyRate tier t). fold (spec_cap tier t).
  fold (spec_projected (Timeline.effectiveWeeks tl) tier t).
  destruct (geb _ _); reflexivity.
Qed.

Lemma assessFeasibility_feasible_iff (tl : Timeline.t) (g : ScoreGap.t)
    (tier : string) (t : Z) :
  In tier intensityLevels -> 1 <= t <= 4 ->
  FeasibilityAssessment.isFeasible (assessFeasibility tl g tier t)
  = geb (spec_projected (Timeline.effectiveWeeks tl) tier t)
        (ScoreGap.totalGap g).
Proof.
  intros Htier Ht. unfold assessFeasibility. cbv zeta.
  rewrite (lookup_rate tier Htier), (lookup_cap tier Htier),
    (multiplier_table t Ht).
  fold (spec_weeklyRate tier t). fold (spec_cap tier t).
  fold (spec_projected (Timeline.effectiveWeeks tl) tier t).
  destruct (geb _ _); reflexivity.
Qed.

(** C5.  For each of the four intensity tiers and tutoring frequencies,
    every week count from 1 and every gap from 0, the projected
    improvement is [min(weeks x weeklyRate, cap)] with
    [weeklyRate = baseRate x multiplier] and [cap = baseCap x multiplier]
    over the figures of the specification, and the assessment is feasible
    exactly when the projection reaches the gap. *)
Theorem assessFeasibility_projection (tl : Timeline.t) (g : ScoreGap.t)
    (tier : string) (t : Z)
    (Htier : In tier ["light"; "moderate"; "intensive"; "very_intensive"])
    (Ht : In t [1; 2; 3; 4])
    (Hw : 1 <= Timeline.effectiveWeeks tl)
    (Hg : leb (of_Z 0) (ScoreGap.totalGap g) = true) :
  let fa := assessFeasibility tl g tier t in
  FeasibilityAssessment.projectedImprovement fa
  = Math_min (mul (of_Z (Timeline.effectiveWeeks tl))
                  (mul (spec_baseRate tier) (spec_multiplier t)))
             (mul (spec_baseCap tier) (spec_multiplier t))
  /\ (FeasibilityAssessment.isFeasible fa = true
      <-> geb (FeasibilityAssessment.projectedImprovement fa)
              (ScoreGap.totalGap g) = true).
Proof.
  assert (Ht' : 1 <= t <= 4) by (simpl in Ht; lia).
  intros fa. subst fa.
  rewrite (assessFeasibility_projected tl g tier t Htier Ht').
  rewrite (assessFeasibility_feasible_iff tl g tier t Htier Ht').
  split; [reflexivity | tauto].
Qed.

Lemma assessFeasibility_projection_witness :
  let tl := Timeline.mk 0 0 147 21 20 in
  let g := calculateScoreGap (of_Z 1000) (of_Z 1400) in
  In "intensive" ["light"; "moderate"; "intensive"; "very_intensive"]
  /\ In 3 [1; 2; 3; 4]
  /\ 1 <= Timeline.effectiveWeeks tl
  /\ leb (of_Z 0) (ScoreGap.totalGap g) = true
  /\ (let fa := assessFeasibility tl g "intensive" 3 in
      FeasibilityAssessment.projectedImprovement fa
      = Math_min (mul (of_Z (Timeline.effectiveWeeks tl))
                      (mul (spec_baseRate "intensive") (spec_multiplier 3)))
                 (mul (spec_baseCap "intensive") (spec_multiplier 3))
      /\ (FeasibilityAssessment.isFeasible fa = true
          <-> geb (FeasibilityAssessment.projectedImprovement fa)
                  (ScoreGap.totalGap g) = true)).
Proof.
  intros tl g.
  assert (H1 : In "intensive" ["light"; "moderate"; "intensive"; "very_intensive"])
    by (simpl; tauto).
  assert (H2 : In 3 [1; 2; 3; 4]) by (simpl; tauto).
  assert (H3 : 1 <= Timeline.effectiveWeeks tl) by (simpl; lia).
  assert (H4 : leb (of_Z 0) (ScoreGap.totalGap g) = true)
    by (vm_compute; reflexivity).
  repeat (split; [assumption |]).
  exact (assessFeasibility_projection tl g "intensive" 3 H1 H2 H3 H4).
Defined.




(** ** Binary64 rounding: signs and bounds *)

(** On doubles the comparison by value is the comparison of the standard
    library (checked on a sample that mixes signs, zeros, infinities,
    integers and decimal fractions). *)
Example compare_is_SFcompare :
  let sample :=
    [ of_Z 0; SFopp (of_Z 0); of_Z 1; of_Z (-1); of_Z 95; of_Z 1600;
      lit 3 10; lit 85 100; lit 135 100; SFopp (lit 1 10);
      mul (of_Z 250) (lit 130 100); of_Z (2 ^ 60);
      S754_infinity false; S754_infinity true; NaN ] in
  forallb (fun x =>
    forallb (fun y =>
      match compare x y, SFcompare x y with
      | Some c, Some c' =>
          match c, c' with
          | Eq, Eq | Lt, Lt | Gt, Gt => true
          | _, _ => false
          end
      | None, None => true
      | _, _ => false
      end) sample) sample = true.
Proof. vm_compute. reflexivity. Qed.

Lemma pow2_pos (k : Z) : 0 <= k -> 0 < 2 ^ k.
Proof. intros. apply Z.pow_pos_nonneg; lia. Qed.


Lemma iter_xO_value (d m : positive) :
  Zpos (Pos.iter xO m d) = Zpos m * 2 ^ Zpos d.
Proof.
  induction d as [| d IH] using Pos.peano_ind.
  - simpl. lia.
  - rewrite Pos.iter_succ, Pos2Z.inj_succ, Z.pow_succ_r by lia.
    rewrite (Pos2Z.inj_xO (Pos.iter xO m d)), IH. lia.
Qed.

Lemma shl_align_value (m : positive) (e e' : Z) :
  Zpos (fst (shl_align m e e')) = Zpos m * 2 ^ (e - Z.min e e')
  /\ snd (shl_align m e e') = Z.min e e'.
Proof.
  unfold shl_align.
  destruct (e' - e) as [| d | d] eqn:Hd; cbn [fst snd].
  - replace (Z.min e e') with e by lia. rewrite Z.sub_diag. simpl. lia.
  - replace (Z.min e e') with e by lia. rewrite Z.sub_diag. simpl. lia.
  - replace (Z.min e e') with e' by lia.
    replace (e - e') with (Zpos d) by lia.
    split; [apply iter_xO_value | reflexivity].
Qed.

Lemma shr_1_half (mrs : shr_record) :
  0 <= shr_m mrs -> shr_m (shr_1 mrs) = shr_m mrs / 2.
Proof.
  destruct mrs as [m r s]. cbn [shr_m]. intros Hm.
  destruct m as [| p | p]; [reflexivity | | lia].
  destruct p as [p | p |]; cbn [shr_1 shr_m].
  - rewrite (Pos2Z.inj_xI p). apply (Z.div_unique _ _ _ 1); lia.
  - rewrite (Pos2Z.inj_xO p). apply (Z.div_unique _ _ _ 0); lia.
  - reflexivity.
Qed.

Lemma iter_shr_value (p : positive) :
  forall mrs, 0 <= shr_m mrs ->
    shr_m (iter_pos shr_1 p mrs) = shr_m mrs / 2 ^ Zpos p.
Proof.
  induction p as [p IH | p IH |]; intros mrs Hm; cbn [iter_pos].
  - assert (H1 : 0 <= shr_m (shr_1 mrs)).
    { rewrite shr_1_half by exact Hm. apply Z.div_pos; lia. }
    assert (H2 : 0 <= shr_m (iter_pos shr_1 p (shr_1 mrs))).
    { rewrite IH by exact H1. apply Z.div_pos; [lia | apply pow2_pos; lia]. }
    rewrite IH by exact H2. rewrite IH by exact H1.
    rewrite shr_1_half by exact Hm.
    pose proof (pow2_pos (Zpos p) ltac:(lia)).
    rewrite !Z.div_div by lia.
    f_equal. rewrite (Pos2Z.inj_xI p).
    replace (2 * Zpos p + 1) with (1 + Zpos p + Zpos p) by lia.
    rewrite !Z.pow_add_r by lia. lia.
  - assert (H2 : 0 <= shr_m (iter_pos shr_1 p mrs)).
    { rewrite IH by exact Hm. apply Z.div_pos; [lia | apply pow2_pos; lia]. }
    rewrite IH by exact H2. rewrite IH by exact Hm.
    pose proof (pow2_pos (Zpos p) ltac:(lia)).
    rewrite Z.div_div by lia.
    f_equal. rewrite (Pos2Z.inj_xO p).
    replace (2 * Zpos p) with (Zpos p + Zpos p) by lia.
    rewrite Z.pow_add_r by lia. lia.
  - rewrite shr_1_half by exact Hm. reflexivity.
Qed.

Lemma shr_value (mrs : shr_record) (e n : Z) :
  0 <= shr_m mrs ->
  shr_m (fst (shr mrs e n)) = shr_m mrs / 2 ^ Z.max 0 n
  /\ snd (shr mrs e n) = e + Z.max 0 n.
Proof.
  intros Hm. unfold shr. destruct n as [| p | p]; cbn [fst snd].
  - simpl. rewrite Z.div_1_r. lia.
  - replace (Z.max 0 (Zpos p)) with (Zpos p) by lia.
    split; [apply iter_shr_value; exact Hm | reflexivity].
  - replace (Z.max 0 (Zneg p)) with 0 by lia.
    simpl. rewrite Z.div_1_r. lia.
Qed.

Lemma shr_record_of_loc_m (m : Z) (l : location) :
  shr_m (shr_record_of_loc m l) = m.
Proof. destruct l as [| []]; reflexivity. Qed.

Lemma round_nearest_even_bounds (m : Z) (l : location) :
  m <= round_nearest_even m l <= m + 1.
Proof.
  unfold round_nearest_even.
  destruct l as [| []]; try destruct (Z.even m); lia.
Qed.

(** The outcome of rounding a non-negative mantissa: mantissa [m2] at
    exponent [e2], not above the input by more than one unit of the
    first shift. *)
Lemma binary_round_aux_spec (s : bool) (m e : Z) (l : location) :
  0 <= m ->
  exists m2 e2,
    0 <= m2 /\ e <= e2
    /\ m2 * 2 ^ (e2 - e)
       <= m + 2 ^ Z.max 0 (fexp prec emax (Zdigits2 m + e) - e)
    /\ binary_round_aux prec emax s m e l
       = match m2 with
         | Z0 => S754_zero s
         | Zpos p =>
             if e2 <=? emax - prec then S754_finite s p e2
             else S754_infinity s
         | Zneg _ => S754_nan
         end.
Proof.
  intros Hm. unfold binary_round_aux, shr_fexp.
  set (n1 := fexp prec emax (Zdigits2 m + e) - e).
  pose proof (shr_value (shr_record_of_loc m l) e n1) as H1.
  rewrite shr_record_of_loc_m in H1. specialize (H1 Hm).
  destruct (shr (shr_record_of_loc m l) e n1) as [mrs1 e1].
  cbn [fst snd] in H1. destruct H1 as [Hm1 He1].
  pose proof (round_nearest_even_bounds (shr_m mrs1) (loc_of_shr_record mrs1))
    as Hr.
  set (r := round_nearest_even (shr_m mrs1) (loc_of_shr_record mrs1)) in *.
  pose proof (pow2_pos (Z.max 0 n1) ltac:(lia)) as Hp1.
  assert (Hm1pos : 0 <= shr_m mrs1).
  { rewrite Hm1. apply Z.div_pos; lia. }
  set (n2 := fexp prec emax (Zdigits2 r + e1) - e1).
  pose proof (shr_value (shr_record_of_loc r loc_Exact) e1 n2) as H2.
  rewrite shr_record_of_loc_m in H2. specialize (H2 ltac:(lia)).
  destruct (shr (shr_record_of_loc r loc_Exact) e1 n2) as [mrs2 e2].
  cbn [fst snd] in H2. destruct H2 as [Hm2 He2].
  pose proof (pow2_pos (Z.max 0 n2) ltac:(lia)) as Hp2.
  exists (shr_m mrs2), e2.
  split; [rewrite Hm2; apply Z.div_pos; lia |].
  split; [lia |].
  split; [| reflexivity].
  replace (e2 - e) with (Z.max 0 n2 + Z.max 0 n1) by lia.
  rewrite Z.pow_add_r by lia.
  pose proof (Z.mul_div_le r (2 ^ Z.max 0 n2) Hp2) as Hd2.
  pose proof (Z.mul_div_le m (2 ^ Z.max 0 n1) Hp1) as Hd1.
  rewrite <- Hm2 in Hd2. rewrite <- Hm1 in Hd1.
  assert (shr_m mrs2 * 2 ^ Z.max 0 n2 <= shr_m mrs1 + 1) by lia.
  nia.
Qed.



Lemma binary_round_aux_nonneg (m e : Z) (l : location) :
  0 <= m -> nonneg (binary_round_aux prec emax false m e l).
Proof.
  intros Hm.
  destruct (binary_round_aux_spec false m e l Hm) as (m2 & e2 & H0 & _ & _ & ->).
  destruct m2 as [| p | p]; [exact I | | lia].
  destruct (e2 <=? emax - prec); exact I.
Qed.

Lemma binary_round_aux_negative (m e : Z) (l : location) :
  0 <= m -> negative (binary_round_aux prec emax true m e l).
Proof.
  intros Hm.
  destruct (binary_round_aux_spec true m e l Hm) as (m2 & e2 & H0 & _ & _ & ->).
  destruct m2 as [| p | p]; [exact I | | lia].
  destruct (e2 <=? emax - prec); exact I.
Qed.

Lemma binary_round_nonneg (m : positive) (e : Z) :
  nonneg (binary_round prec emax false m e).
Proof.
  unfold binary_round. destruct (shl_align m e _) as [mz ez].
  apply binary_round_aux_nonneg. lia.
Qed.

Lemma binary_round_negative (m : positive) (e : Z) :
  negative (binary_round prec emax true m e).
Proof.
  unfold binary_round. destruct (shl_align m e _) as [mz ez].
  apply binary_round_aux_negative. lia.
Qed.

Lemma of_Z_nonneg (z : Z) : 0 <= z -> nonneg (of_Z z).
Proof.
  intros Hz. unfold of_Z, binary_normalize.
  destruct z as [| p | p]; [exact I | apply binary_round_nonneg | lia].
Qed.

Lemma mul_nonneg (x : number) (my : positive) (ey : Z) :
  nonneg x -> nonneg (mul x (S754_finite false my ey)).
Proof.
  destruct x as [[] | [] | | [] mx ex]; cbn; intros H; try contradiction; try exact I.
  apply binary_round_aux_nonneg. lia.
Qed.







Lemma nonneg_not_nan (x : number) : nonneg x -> is_nan x = false.
Proof. destruct x as [[] | [] | | [] m e]; simpl; tauto. Qed.

Lemma negative_not_nan (x : number) : negative x -> is_nan x = false.
Proof. destruct x as [[] | [] | | [] m e]; simpl; tauto. Qed.

Lemma scaled_pos (m : positive) (e e' : Z) :
  0 < Zpos m * 2 ^ (e - Z.min e e') /\ 0 < Zpos m * 2 ^ (e - Z.min e' e).
Proof.
  pose proof (pow2_pos (e - Z.min e e') ltac:(lia)).
  pose proof (pow2_pos (e - Z.min e' e) ltac:(lia)).
  split; nia.
Qed.

Lemma compare_antisym (x y : number) :
  compare y x = option_map CompOpp (compare x y).
Proof.
  unfold compare. rewrite (orb_comm (is_nan y)).
  destruct (is_nan x || is_nan y); [reflexivity |].
  cbn [option_map]. f_equal.
  rewrite (Z.compare_antisym (side x) (side y)).
  destruct (side x ?= side y) eqn:E; cbn [CompOpp]; try reflexivity.
  apply Z.compare_eq in E. rewrite E.
  destruct (side y =? 0); [| reflexivity].
  rewrite (Z.min_comm (expo y) (expo x)).
  apply Z.compare_antisym.
Qed.

Lemma compare_refl (x : number) : is_nan x = false -> compare x x = Some Eq.
Proof.
  intros H. unfold compare. rewrite H. cbn [orb].
  rewrite !Z.compare_refl. destruct (side x =? 0); reflexivity.
Qed.

Lemma leb_refl (x : number) : is_nan x = false -> leb x x = true.
Proof. intros H. unfold leb. rewrite compare_refl by exact H. reflexivity. Qed.

Lemma ltb_leb (x y : number) : ltb x y = true -> leb x y = true.
Proof. unfold ltb, leb. destruct (compare x y) as [[]|]; congruence. Qed.

(** Without NaN, [x < y] failing means [y <= x]. *)
Lemma not_ltb_leb (x y : number) :
  is_nan x = false -> is_nan y = false -> ltb x y = false -> leb y x = true.
Proof.
  intros Hx Hy. unfold ltb, leb. rewrite (compare_antisym x y).
  unfold compare. rewrite Hx, Hy. cbn [orb option_map].
  destruct (match side x ?= side y with Eq => _ | Lt => Lt | Gt => Gt end);
    cbn [CompOpp]; congruence.
Qed.

Lemma Math_min_cases (x y : number) :
  is_nan x = false -> is_nan y = false ->
  (Math_min x y = x /\ leb x y = true)
  \/ (Math_min x y = y /\ leb y x = true).
Proof.
  intros Hx Hy. unfold Math_min. rewrite Hx, Hy. cbn [orb].
  destruct (ltb x y) eqn:E1; [left; split; [reflexivity | apply ltb_leb, E1] |].
  destruct (ltb y x) eqn:E2; [right; split; [reflexivity | apply ltb_leb, E2] |].
  destruct (is_neg_zero x).
  - left. split; [reflexivity | apply not_ltb_leb; assumption].
  - right. split; [reflexivity | apply not_ltb_leb; assumption].
Qed.

Lemma Math_max_cases (x y : number) :
  is_nan x = false -> is_nan y = false ->
  (Math_max x y = x /\ leb y x = true)
  \/ (Math_max x y = y /\ leb x y = true).
Proof.
  intros Hx Hy. unfold Math_max. rewrite Hx, Hy. cbn [orb].
  destruct (ltb x y) eqn:E1; [right; split; [reflexivity | apply ltb_leb, E1] |].
  destruct (ltb y x) eqn:E2; [left; split; [reflexivity | apply ltb_leb, E2] |].
  destruct (is_neg_zero x).
  - right. split; [reflexivity | apply not_ltb_leb; assumption].
  - left. split; [reflexivity | apply not_ltb_leb; assumption].
Qed.

(** Nothing at or below a finite number is plus infinity. *)
Lemma leb_finite_not_inf (x : number) (my : positive) (ey : Z) (s : bool) :
  leb x (S754_finite s my ey) = true -> x <> S754_infinity false.
Proof. intros H ->. discriminate H. Qed.

Lemma leb_zero_not_inf (x : number) (s : bool) :
  leb x (S754_zero s) = true -> x <> S754_infinity false.
Proof. intros H ->. discriminate H. Qed.

Ltac num_simpl :=
  unfold geb, gtb, leb, ltb, eqb, compare;
  cbn [is_nan orb side mant expo cond_Zopp Z.compare Z.eqb Z.opp].

Ltac num_simpl_in H :=
  unfold geb, gtb, leb, ltb, eqb, compare in H;
  cbn [is_nan orb side mant expo cond_Zopp Z.compare Z.eqb Z.opp] in H.











Lemma finite_nonneg_nonneg (x : number) : finite_nonneg x -> nonneg x.
Proof. intros [-> | (m & e & ->)]; exact I. Qed.



Lemma rate_finite (tier : string) (t : Z) :
  In tier intensityLevels -> 1 <= t <= 4 ->
  exists m e, spec_weeklyRate tier t = S754_finite false m e.
Proof.
  intros [<- | [<- | [<- | [<- | []]]]] Ht; enumerate t 1 4;
    vm_compute; eauto.
Qed.

Lemma cap_finite (tier : string) (t : Z) :
  In tier intensityLevels -> 1 <= t <= 4 ->
  exists m e, spec_cap tier t = S754_finite false m e.
Proof.
  intros [<- | [<- | [<- | [<- | []]]]] Ht; enumerate t 1 4;
    vm_compute; eauto.
Qed.

(** The projection is zero or a positive finite number. *)
Lemma projected_shape (w : Z) (tier : string) (t : Z) :
  In tier intensityLevels -> 1 <= t <= 4 -> 1 <= w ->
  finite_nonneg (spec_projected w tier t).
Proof.
  intros Htier Ht Hw. unfold spec_projected.
  destruct (rate_finite tier t Htier Ht) as (mr & er & ->).
  destruct (cap_finite tier t Htier Ht) as (mc & ec & ->).
  pose proof (mul_nonneg _ mr er (of_Z_nonneg w ltac:(lia))) as Hraw.
  set (raw := mul _ _) in *.
  destruct (Math_min_cases raw (S754_finite false mc ec)
              (nonneg_not_nan raw Hraw) eq_refl) as [[-> Hle] | [-> _]].
  - pose proof (leb_finite_not_inf _ _ _ _ Hle) as Hinf.
    destruct raw as [[] | [] | | [] m e]; try contradiction.
    + left. reflexivity.
    + right. eauto.
  - right. eauto.
Qed.




(** * Further properties of the generator and of the page *)

(** ** Order on numbers *)

(** The value of a finite number in units of [2^E], for [E] at or below
    its exponent. *)
Lemma scaled_rescale (a e e0 E : Z) :
  E <= e0 -> e0 <= e ->
  a * 2 ^ (e - E) = a * 2 ^ (e - e0) * 2 ^ (e0 - E).
Proof.
  intros H1 H2. rewrite <- Z.mul_assoc, <- Z.pow_add_r by lia.
  do 2 f_equal. lia.
Qed.

(** [x <= y] spelled out: no NaN, and either [x] lies on a lower side of
    the extended line, or both are on the same side and, when finite,
    their values compare in every common unit. *)
Lemma leb_iff (x y : number) :
  leb x y = true <->
  is_nan x = false /\ is_nan y = false
  /\ (side x < side y
      \/ (side x = side y
          /\ (side x <> 0
              \/ forall E, E <= expo x -> E <= expo y ->
                   mant x * 2 ^ (expo x - E) <= mant y * 2 ^ (expo y - E)))).
Proof.
  unfold leb, compare.
  destruct (is_nan x) eqn:Hx; [cbn; split; [discriminate | intros [H _]; discriminate H] |].
  destruct (is_nan y) eqn:Hy; [cbn; split; [discriminate | intros (_ & H & _); discriminate H] |].
  cbn [orb].
  set (e0 := Z.min (expo x) (expo y)).
  destruct (Z.compare_spec (side x) (side y)) as [Hs | Hs | Hs].
  - destruct (Z.eqb_spec (side x) 0) as [H0 | H0].
    + destruct (Z.compare_spec (mant x * 2 ^ (expo x - e0))
                  (mant y * 2 ^ (expo y - e0))) as [Hc | Hc | Hc].
      * split; [| reflexivity]. intros _. repeat split.
        right. split; [exact Hs |]. right. intros E H1 H2.
        rewrite (scaled_rescale (mant x) (expo x) e0 E) by lia.
        rewrite (scaled_rescale (mant y) (expo y) e0 E) by lia.
        rewrite Hc. lia.
      * split; [| reflexivity]. intros _. repeat split.
        right. split; [exact Hs |]. right. intros E H1 H2.
        rewrite (scaled_rescale (mant x) (expo x) e0 E) by lia.
        rewrite (scaled_rescale (mant y) (expo y) e0 E) by lia.
        pose proof (Z.pow_nonneg 2 (e0 - E) ltac:(lia)). nia.
      * split; [discriminate |].
        intros (_ & _ & [H | (_ & [H | H])]); [lia | contradiction |].
        specialize (H e0 ltac:(lia) ltac:(lia)). lia.
    + split; [| reflexivity]. intros _. repeat split.
      right. split; [exact Hs |]. left. exact H0.
  - split; [| reflexivity]. intros _. repeat split. left. exact Hs.
  - split; [discriminate |].
    intros (_ & _ & [H | (H & _)]); lia.
Qed.

Lemma leb_trans (x y z : number) :
  leb x y = true -> leb y z = true -> leb x z = true.
Proof.
  rewrite !leb_iff.
  intros (Hx & Hy & Hxy) (_ & Hz & Hyz).
  split; [exact Hx |]. split; [exact Hz |].
  destruct Hxy as [Hxy | (Hxy & Hvxy)]; destruct Hyz as [Hyz | (Hyz & Hvyz)];
    try (left; lia).
  right. split; [lia |].
  destruct Hvxy as [Hvxy | Hvxy]; [left; exact Hvxy |].
  destruct Hvyz as [Hvyz | Hvyz]; [left; lia |].
  right. intros E H1 H2.
  set (E' := Z.min E (expo y)).
  pose proof (Hvxy E' ltac:(lia) ltac:(lia)) as A.
  pose proof (Hvyz E' ltac:(lia) ltac:(lia)) as B.
  rewrite (scaled_rescale (mant x) (expo x) E E') in A by lia.
  rewrite (scaled_rescale (mant z) (expo z) E E') in B by lia.
  pose proof (Z.pow_pos_nonneg 2 (E - E') ltac:(lia) ltac:(lia)).
  nia.
Qed.

(** Without NaN any two numbers are comparable. *)
Lemma leb_total (x y : number) :
  is_nan x = false -> is_nan y = false -> leb x y = true \/ leb y x = true.
Proof.
  intros Hx Hy. destruct (leb x y) eqn:E; [left; reflexivity |].
  right. unfold leb in *. rewrite (compare_antisym x y).
  unfold compare in *. rewrite Hx, Hy in *. cbn [orb option_map] in *.
  destruct (match side x ?= side y with Eq => _ | Lt => Lt | Gt => Gt end);
    cbn [CompOpp]; congruence.
Qed.

Lemma leb_not_nan (x y : number) :
  leb x y = true -> is_nan x = false /\ is_nan y = false.
Proof. rewrite leb_iff. tauto. Qed.

(** ** Rounding never loses a value above the subnormal range *)








(** ** Subtraction of finite numbers *)

Lemma binary_normalize_not_nan (z e : Z) :
  is_nan (binary_normalize prec emax z e false) = false.
Proof.
  destruct z as [| p | p]; cbn [binary_normalize]; [reflexivity | |].
  - apply nonneg_not_nan, binary_round_nonneg.
  - apply negative_not_nan, binary_round_negative.
Qed.

Lemma sub_finite_signed (sx sy : bool) (mx my : positive) (ex ey : Z) :
  sub (S754_finite sx mx ex) (S754_finite sy my ey)
  = binary_normalize prec emax
      (cond_Zopp sx (Zpos mx) * 2 ^ (ex - Z.min ex ey)
       - cond_Zopp sy (Zpos my) * 2 ^ (ey - Z.min ex ey))
      (Z.min ex ey) false.
Proof.
  unfold sub, SFsub.
  destruct (shl_align_value mx ex (Z.min ex ey)) as [Hx _].
  destruct (shl_align_value my ey (Z.min ex ey)) as [Hy _].
  replace (Z.min ex (Z.min ex ey)) with (Z.min ex ey) in Hx by lia.
  replace (Z.min ey (Z.min ex ey)) with (Z.min ex ey) in Hy by lia.
  f_equal. destruct sx, sy; cbn [cond_Zopp]; rewrite Hx, Hy; lia.
Qed.

Lemma sub_not_nan (x y : number) :
  is_finite x = true -> is_finite y = true -> is_nan (sub x y) = false.
Proof.
  destruct x as [sx | sx | | sx mx ex]; try discriminate;
    destruct y as [sy | sy | | sy my ey]; try discriminate; intros _ _.
  - destruct sx, sy; reflexivity.
  - reflexivity.
  - reflexivity.
  - rewrite sub_finite_signed. apply binary_normalize_not_nan.
Qed.

(** Subtracting a number from one that is not larger gives zero or a
    negative number. *)
Lemma sub_at_most_zero (x y : number) :
  is_finite x = true -> is_finite y = true -> leb x y = true ->
  at_most_zero (sub x y).
Proof.
  destruct x as [sx | sx | | sx mx ex]; try discriminate;
    destruct y as [sy | sy | | sy my ey]; try discriminate; intros _ _ Hle.
  - destruct sx, sy; exact I.
  - destruct sy; [| exact I].
    exfalso. num_simpl_in Hle. rewrite Z.mul_0_l in Hle.
    destruct (scaled_pos my ey 0) as [_ Hq].
    destruct (Z.compare_spec 0 (Zneg my * 2 ^ (ey - Z.min 0 ey)));
      try discriminate Hle; lia.
  - destruct sx; [exact I |].
    exfalso. num_simpl_in Hle. rewrite Z.mul_0_l in Hle.
    destruct (scaled_pos mx ex 0) as [Hp _].
    destruct (Z.compare_spec (Zpos mx * 2 ^ (ex - Z.min ex 0)) 0);
      try discriminate Hle; lia.
  - rewrite sub_finite_signed.
    unfold leb, compare in Hle. cbn [is_nan orb side mant expo Z.compare Z.eqb] in Hle.
    set (a := cond_Zopp sx (Zpos mx) * _) in *.
    set (b := cond_Zopp sy (Zpos my) * _) in *.
    assert (Hab : a <= b).
    { destruct (Z.compare_spec a b); [lia | lia | discriminate Hle]. }
    unfold binary_normalize.
    destruct (a - b) as [| p | p] eqn:E; [exact I | lia |].
    pose proof (binary_round_negative p (Z.min ex ey)) as Hn.
    destruct (binary_round prec emax true p (Z.min ex ey)) as [[] | [] | | [] m e];
      try contradiction; exact I.
Qed.

Lemma Math_max_zero_floor (y : number) :
  at_most_zero y -> Math_max (of_Z 0) y = of_Z 0.
Proof.
  change (of_Z 0) with (S754_zero false).
  destruct y as [[] | [] | | [] m e]; try contradiction; intros _;
    try reflexivity.
  unfold Math_max. cbn [is_nan orb].
  assert (H1 : ltb (S754_zero false) (S754_finite true m e) = false).
  { num_simpl. rewrite Z.mul_0_l. destruct (scaled_pos m e 0) as [_ Hq].
    destruct (Z.compare_spec 0 (Zneg m * 2 ^ (e - Z.min 0 e)));
      try reflexivity; lia. }
  assert (H2 : ltb (S754_finite true m e) (S754_zero false) = true).
  { num_simpl. rewrite Z.mul_0_l. destruct (scaled_pos m e 0) as [Hp _].
    destruct (Z.compare_spec (Zneg m * 2 ^ (e - Z.min e 0)) 0);
      try reflexivity; lia. }
  rewrite H1, H2. reflexivity.
Qed.

Lemma Math_max_floor_le (y : number) :
  is_nan y = false -> leb (of_Z 0) (Math_max (of_Z 0) y) = true.
Proof.
  intros Hy.
  destruct (Math_max_cases (of_Z 0) y eq_refl Hy) as [[-> _] | [-> H]];
    [reflexivity | exact H].
Qed.

(** The gap computed by [calculateScoreGap] from two finite scores is
    never below zero. *)
Lemma score_gap_nonneg (c t : number) :
  is_finite c = true -> is_finite t = true ->
  leb (of_Z 0) (ScoreGap.totalGap (calculateScoreGap c t)) = true.
Proof.
  intros Hc Ht. unfold calculateScoreGap. cbn [ScoreGap.totalGap].
  apply Math_max_floor_le, sub_not_nan; assumption.
Qed.

Lemma score_gap_zero (c t : number) :
  is_finite c = true -> is_finite t = true -> leb t c = true ->
  calculateScoreGap c t = ScoreGap.mk (of_Z 0) true small.
Proof.
  intros Hc Ht Hle. unfold calculateScoreGap.
  rewrite (Math_max_zero_floor _ (sub_at_most_zero t c Ht Hc Hle)).
  reflexivity.
Qed.

(** X1.  The gap is clamped at zero: with finite scores it is never
    below 0, and a target at or below the current score gives the
    gap 0, classified "small" and achievable. *)
Theorem calculateScoreGap_clamped (c t : number)
    (Hc : is_finite c = true) (Ht : is_finite t = true) :
  leb (of_Z 0) (ScoreGap.totalGap (calculateScoreGap c t)) = true
  /\ (leb t c = true ->
      calculateScoreGap c t = ScoreGap.mk (of_Z 0) true small).
Proof.
  split.
  - apply score_gap_nonneg; assumption.
  - apply score_gap_zero; assumption.
Qed.

Lemma calculateScoreGap_clamped_witness :
  is_finite (of_Z 1400) = true /\ is_finite (of_Z 1200) = true
  /\ leb (of_Z 0)
         (ScoreGap.totalGap (calculateScoreGap (of_Z 1400) (of_Z 1200))) = true
  /\ (leb (of_Z 1200) (of_Z 1400) = true ->
      calculateScoreGap (of_Z 1400) (of_Z 1200)
      = ScoreGap.mk (of_Z 0) true small).
Proof.
  split; [reflexivity |]. split; [reflexivity |].
  apply (calculateScoreGap_clamped (of_Z 1400) (of_Z 1200)); reflexivity.
Defined.

(** ** Thresholds *)

(** Closes a goal whose hypotheses place [g1] at or below [g2], [g2] at
    or below a bound and [g1] above a larger bound. *)
Ltac threshold_clash :=
  match goal with
  | H1 : leb ?g1 ?g2 = true, H2 : leb ?g2 (of_Z ?k) = true,
    H3 : leb ?g1 (of_Z ?k') = false |- _ =>
      rewrite (leb_trans g1 (of_Z k) (of_Z k')
                 (leb_trans g1 g2 (of_Z k) H1 H2) eq_refl) in H3;
      discriminate H3
  | H2 : leb ?g (of_Z ?k) = true, H3 : leb ?g (of_Z ?k') = false |- _ =>
      rewrite (leb_trans g (of_Z k) (of_Z k') H2 eq_refl) in H3;
      discriminate H3
  end.

Ltac split_thresholds :=
  repeat match goal with
         | |- context [if leb ?a ?b then _ else _] =>
             let E := fresh "E" in destruct (leb a b) eqn:E
         end.

(** X2.  Difficulty and achievability agree, and a larger gap is never
    classified as easier. *)
Theorem calculateScoreGap_buckets_ordered (c1 t1 c2 t2 : number) :
  let sg1 := calculateScoreGap c1 t1 in
  let sg2 := calculateScoreGap c2 t2 in
  (ScoreGap.difficulty sg1 <> very_large -> ScoreGap.isAchievable sg1 = true)
  /\ (is_nan (ScoreGap.totalGap sg1) = true ->
      ScoreGap.difficulty sg1 = very_large
      /\ ScoreGap.isAchievable sg1 = false)
  /\ (leb (ScoreGap.totalGap sg1) (ScoreGap.totalGap sg2) = true ->
      difficultyRank (ScoreGap.difficulty sg1)
      <= difficultyRank (ScoreGap.difficulty sg2)
      /\ (ScoreGap.isAchievable sg2 = true -> ScoreGap.isAchievable sg1 = true)).
Proof.
  intros sg1 sg2. subst sg1 sg2. unfold calculateScoreGap.
  cbn [ScoreGap.difficulty ScoreGap.isAchievable ScoreGap.totalGap].
  set (g1 := Math_max (of_Z 0) (sub t1 c1)).
  set (g2 := Math_max (of_Z 0) (sub t2 c2)).
  split; [| split].
  - split_thresholds; intros H; try reflexivity; try threshold_clash;
      try (exfalso; apply H; reflexivity).
    all: destruct (leb g1 (of_Z 500)) eqn:E500; try reflexivity; threshold_clash.
  - intros Hnan.
    assert (Hall : forall k, leb g1 k = false).
    { intros k. destruct (leb g1 k) eqn:E; [| reflexivity].
      apply leb_not_nan in E. destruct E as [E _]. congruence. }
    rewrite !Hall. split; reflexivity.
  - intros Hle. split.
    + split_thresholds; cbn [difficultyRank]; try lia; threshold_clash.
    + intros H2. destruct (leb g1 (of_Z 500)) eqn:E; [reflexivity |].
      threshold_clash.
Qed.

(** X3.  The recommended number of weeks is one of the table, between 4
    and 36; a gap that is not a number gets 36; and a larger gap is
    never given fewer weeks. *)
Theorem getRecommendedWeeks_monotone (g1 g2 : number) :
  4 <= getRecommendedWeeks g1 <= 36
  /\ (is_nan g1 = true -> getRecommendedWeeks g1 = 36)
  /\ (leb g1 g2 = true -> getRecommendedWeeks g1 <= getRecommendedWeeks g2).
Proof.
  unfold getRecommendedWeeks. split; [| split].
  - split_thresholds; lia.
  - intros Hnan.
    assert (Hall : forall k, leb g1 k = false).
    { intros k. destruct (leb g1 k) eqn:E; [| reflexivity].
      apply leb_not_nan in E. destruct E as [E _]. congruence. }
    rewrite !Hall. reflexivity.
  - intros Hle. split_thresholds; try lia; threshold_clash.
Qed.

(** ** NaN propagation *)

Lemma mul_nan_l (x : number) : mul NaN x = NaN.
Proof. reflexivity. Qed.
Lemma mul_nan_r (x : number) : mul x NaN = NaN.
Proof. destruct x; reflexivity. Qed.
Lemma sub_nan_r (x : number) : sub x NaN = NaN.
Proof. destruct x; reflexivity. Qed.
Lemma div_nan_l (x : number) : div NaN x = NaN.
Proof. reflexivity. Qed.
Lemma Math_min_nan_l (x : number) : Math_min NaN x = NaN.
Proof. reflexivity. Qed.
Lemma geb_nan_l (x : number) : geb NaN x = false.
Proof. unfold geb, leb, compare. cbn [is_nan]. rewrite orb_true_r. reflexivity. Qed.

Lemma lookup_rate_missing (tier : string) :
  ~ In tier intensityLevels -> lookup WEEKLY_IMPROVEMENT_RATES tier = NaN.
Proof.
  intros H. unfold WEEKLY_IMPROVEMENT_RATES, lookup.
  repeat match goal with
         | |- context [String.eqb tier ?k] =>
             destruct (String.eqb_spec tier k) as [-> | _];
             [exfalso; apply H; simpl; tauto |]
         end.
  reflexivity.
Qed.

Lemma multiplier_missing (t : Z) :
  ~ 1 <= t <= 4 -> TUTORING_MULTIPLIERS t = NaN.
Proof.
  intros H. unfold TUTORING_MULTIPLIERS.
  destruct t as [| p | p]; try reflexivity.
  destruct p as [[p | p |] | [[p | p |] | [p | p |] |] |]; try reflexivity; lia.
Qed.

(** X4.  An intensity name outside the table, or a tutoring count outside
    1..4, is not rejected: the projection, the shortfall and the
    confidence all become NaN and the assessment is reported infeasible. *)
Theorem assessFeasibility_unknown_key (tl : Timeline.t) (g : ScoreGap.t)
    (tier : string) (t : Z)
    (Hbad : ~ In tier intensityLevels \/ ~ 1 <= t <= 4) :
  let fa := assessFeasibility tl g tier t in
  FeasibilityAssessment.isFeasible fa = false
  /\ FeasibilityAssessment.projectedImprovement fa = NaN
  /\ FeasibilityAssessment.shortfall fa = Some NaN
  /\ FeasibilityAssessment.confidence fa = NaN.
Proof.
  intros fa. subst fa. unfold assessFeasibility. cbv zeta.
  assert (Hrate : mul (lookup WEEKLY_IMPROVEMENT_RATES tier)
                      (TUTORING_MULTIPLIERS t) = NaN).
  { destruct Hbad as [H | H].
    - rewrite (lookup_rate_missing tier H). apply mul_nan_l.
    - rewrite (multiplier_missing t H). apply mul_nan_r. }
  rewrite Hrate, mul_nan_r, Math_min_nan_l, geb_nan_l.
  cbn [FeasibilityAssessment.isFeasible
       FeasibilityAssessment.projectedImprovement
       FeasibilityAssessment.shortfall FeasibilityAssessment.confidence].
  rewrite sub_nan_r, div_nan_l, sub_nan_r.
  repeat split.
Qed.

Lemma assessFeasibility_unknown_key_witness :
  let tl := Timeline.mk 0 0 91 13 12 in
  let g := calculateScoreGap (of_Z 1000) (of_Z 1200) in
  (~ In "extreme" intensityLevels \/ ~ 1 <= 2 <= 4)
  /\ (let fa := assessFeasibility tl g "extreme" 2 in
      FeasibilityAssessment.isFeasible fa = false
      /\ FeasibilityAssessment.projectedImprovement fa = NaN
      /\ FeasibilityAssessment.shortfall fa = Some NaN
      /\ FeasibilityAssessment.confidence fa = NaN).
Proof.
  intros tl g.
  assert (H : ~ In "extreme" intensityLevels \/ ~ 1 <= 2 <= 4).
  { left. simpl. intros [H | [H | [H | [H | []]]]]; discriminate H. }
  split; [exact H |].
  exact (assessFeasibility_unknown_key tl g "extreme" 2 H).
Defined.

(** ** Bounds of the projection *)

Lemma cap_at_most_630 (tier : string) (t : Z) :
  In tier intensityLevels -> 1 <= t <= 4 ->
  leb (spec_cap tier t) (of_Z 630) = true.
Proof.
  intros [<- | [<- | [<- | [<- | []]]]] Ht; enumerate t 1 4; reflexivity.
Qed.

Lemma projected_le_cap (w : Z) (tier : string) (t : Z) :
  In tier intensityLevels -> 1 <= t <= 4 -> 1 <= w ->
  leb (spec_projected w tier t) (spec_cap tier t) = true.
Proof.
  intros Htier Ht Hw. unfold spec_projected.
  destruct (rate_finite tier t Htier Ht) as (mr & er & ->).
  destruct (cap_finite tier t Htier Ht) as (mc & ec & Hc). rewrite Hc.
  pose proof (mul_nonneg _ mr er (of_Z_nonneg w ltac:(lia))) as Hraw.
  set (raw := mul _ _) in *.
  destruct (Math_min_cases raw (S754_finite false mc ec)
              (nonneg_not_nan raw Hraw) eq_refl) as [[-> Hle] | [-> _]].
  - exact Hle.
  - apply leb_refl. reflexivity.
Qed.

Lemma nonneg_leb_zero (x : number) : nonneg x -> leb (of_Z 0) x = true.
Proof.
  change (of_Z 0) with (S754_zero false).
  destruct x as [[] | [] | | [] m e]; try contradiction; intros _;
    try reflexivity.
  num_simpl. rewrite Z.mul_0_l. destruct (scaled_pos m e 0) as [_ Hq].
  destruct (Z.compare_spec 0 (Zpos m * 2 ^ (e - Z.min 0 e)));
    try reflexivity; lia.
Qed.

(** X5.  The projected improvement lies between 0 and the cap of the tier,
    hence never above 630 points however long the timeline. *)
Theorem assessFeasibility_projection_capped (tl : Timeline.t) (g : ScoreGap.t)
    (tier : string) (t : Z)
    (Htier : In tier intensityLevels) (Ht : 1 <= t <= 4)
    (Hw : 1 <= Timeline.effectiveWeeks tl) :
  let p := FeasibilityAssessment.projectedImprovement
             (assessFeasibility tl g tier t) in
  leb (of_Z 0) p = true
  /\ leb p (mul (lookup MAX_IMPROVEMENTS tier) (TUTORING_MULTIPLIERS t)) = true
  /\ leb p (of_Z 630) = true.
Proof.
  intros p. subst p.
  rewrite (assessFeasibility_projected tl g tier t Htier Ht).
  rewrite (lookup_cap tier Htier), (multiplier_table t Ht).
  fold (spec_cap tier t).
  pose proof (projected_le_cap _ tier t Htier Ht Hw) as Hcap.
  split; [| split].
  - apply nonneg_leb_zero, finite_nonneg_nonneg, projected_shape; assumption.
  - exact Hcap.
  - exact (leb_trans _ _ _ Hcap (cap_at_most_630 tier t Htier Ht)).
Qed.

Lemma assessFeasibility_projection_capped_witness :
  let tl := Timeline.mk 0 0 700 100 99 in
  let g := calculateScoreGap (of_Z 1000) (of_Z 1200) in
  In "very_intensive" intensityLevels /\ 1 <= 4 <= 4
  /\ 1 <= Timeline.effectiveWeeks tl
  /\ (let p := FeasibilityAssessment.projectedImprovement
                 (assessFeasibility tl g "very_intensive" 4) in
      leb (of_Z 0) p = true
      /\ leb p (mul (lookup MAX_IMPROVEMENTS "very_intensive")
                    (TUTORING_MULTIPLIERS 4)) = true
      /\ leb p (of_Z 630) = true).
Proof.
  intros tl g.
  assert (H1 : In "very_intensive" intensityLevels) by (simpl; tauto).
  assert (H2 : 1 <= 4 <= 4) by lia.
  assert (H3 : 1 <= Timeline.effectiveWeeks tl) by (simpl; lia).
  repeat (split; [assumption |]).
  exact (assessFeasibility_projection_capped tl g "very_intensive" 4 H1 H2 H3).
Defined.

(** ** What the high-priority recommendations promise *)

Ltac in_singleton H :=
  destruct H as [H | []]; subst.

(** X6.  A recommendation to raise the intensity names the first tier above
    the current one whose projection reaches the gap; a recommendation
    to add tutoring is only made below four sessions and when one more
    session reaches the gap. *)
Theorem assessFeasibility_high_priority_backed (tl : Timeline.t)
    (g : ScoreGap.t) (tier : string) (t : Z) (r : Recommendation.t)
    (Htier : In tier intensityLevels) (Ht : 1 <= t <= 4)
    (Hr : In r (FeasibilityAssessment.recommendations
                  (assessFeasibility tl g tier t))) :
  let w := Timeline.effectiveWeeks tl in
  let gap := ScoreGap.totalGap g in
  let p := FeasibilityAssessment.projectedImprovement
             (assessFeasibility tl g tier t) in
  (Recommendation.type r = increase_intensity ->
   exists tier',
     In tier' intensityLevels /\ tierRank tier < tierRank tier'
     /\ Recommendation.details r
        = [ ("newIntensity", VStr tier');
            ("projectedImprovement", VNum (spec_projected w tier' t)) ]
     /\ Recommendation.impact r = sub (spec_projected w tier' t) p
     /\ geb (spec_projected w tier' t) gap = true
     /\ forall x, In x intensityLevels ->
          tierRank tier < tierRank x < tierRank tier' ->
          geb (spec_projected w x t) gap = false)
  /\ (Recommendation.type r = add_tutoring ->
      t < 4
      /\ Recommendation.details r
         = [ ("currentSessions", VNum (of_Z t));
             ("recommendedSessions", VNum (of_Z (t + 1)));
             ("projectedWithMoreTutoring",
              VNum (projectedWithMoreTutoring w tier t)) ]
      /\ Recommendation.impact r = sub (projectedWithMoreTutoring w tier t) p
      /\ geb (projectedWithMoreTutoring w tier t) gap = true).
Proof.
  intros w gap p. subst p.
  rewrite (assessFeasibility_projected tl g tier t Htier Ht).
  fold w.
  revert Hr. unfold assessFeasibility. cbv zeta.
  rewrite (lookup_rate tier Htier), (lookup_cap tier Htier).
  fold w gap.
  set (P := Math_min _ _).
  assert (HP : P = spec_projected w tier t).
  { subst P. rewrite (multiplier_table t Ht). reflexivity. }
  destruct (geb P gap) eqn:Efeasible;
    cbn [FeasibilityAssessment.recommendations]; [intros [] |].
  intros Hr. apply in_app_or in Hr. destruct Hr as [Hr | Hr].
  - (* the scan over the higher tiers *)
    split; [intros _ | ].
    2:{ intros Hty. exfalso. revert Hr Hty.
        generalize (skipn (Z.to_nat (indexOf intensityLevels tier + 1))
                      intensityLevels).
        intros l. induction l as [| x l IH]; cbn [scanIntensity]; [intros [] |].
        cbv zeta.
        match goal with
        | |- context [if ?c then _ else _] => destruct c
        end; [| exact IH].
        intros Hin Hty. in_singleton Hin. discriminate Hty. }
    rewrite <- HP. clear HP. subst P.
    rewrite (multiplier_table t Ht) in *.
    destruct Htier as [<- | [<- | [<- | [<- | []]]]];
      match type of Hr with
      | In _ (scanIntensity ?l _ _ _ _) =>
          let l' := eval vm_compute in l in change l with l' in Hr
      end;
      cbn [scanIntensity] in Hr; cbv zeta in Hr.
    all: repeat match type of Hr with
           | In _ (if ?c then _ else _) => destruct c eqn:?
           end;
         try (destruct Hr; fail); in_singleton Hr.
    all: cbn [Recommendation.details Recommendation.impact];
         match goal with
         | |- context [("newIntensity", VStr ?s)] => exists s
         end; split; [simpl; tauto |];
         split; [vm_compute; reflexivity |];
         split; [reflexivity |]; split; [reflexivity |];
         split; [assumption |];
         intros x [<- | [<- | [<- | [<- | []]]]] Hrank;
         vm_compute in Hrank; destruct Hrank as [Hlo Hhi];
         try discriminate Hlo; try discriminate Hhi; assumption.
  - apply in_app_or in Hr. destruct Hr as [Hr | Hr].
    + split; [intros Hty | intros _].
      * exfalso. destruct (t <? 4); [| destruct Hr].
        match type of Hr with
        | In _ (if ?c then _ else _) => destruct c
        end; [| destruct Hr].
        in_singleton Hr. discriminate Hty.
      * destruct (Z.ltb_spec t 4) as [Hlt | Hge]; [| destruct Hr].
        replace (Z.min 4 (t + 1)) with (t + 1) in Hr by lia.
        rewrite <- (lookup_rate tier Htier), <- (lookup_cap tier Htier) in Hr.
        fold (projectedWithMoreTutoring w tier t) in Hr.
        destruct (geb (projectedWithMoreTutoring w tier t) gap) eqn:E;
          [| destruct Hr].
        in_singleton Hr. cbn [Recommendation.details Recommendation.impact].
        rewrite HP. repeat split; assumption.
    + split; intros Hty; exfalso;
        destruct Hr as [<- | [<- | []]]; discriminate Hty.
Qed.

Lemma assessFeasibility_high_priority_backed_witness :
  let tl := Timeline.mk 0 0 63 9 8 in
  let g := calculateScoreGap (of_Z 1000) (of_Z 1150) in
  let fa := assessFeasibility tl g "moderate" 1 in
  let r := hd (Recommendation.mk adjust_target low NaN [])
              (FeasibilityAssessment.recommendations fa) in
  In "moderate" intensityLevels /\ 1 <= 1 <= 4
  /\ In r (FeasibilityAssessment.recommendations fa)
  /\ (Recommendation.type r = increase_intensity ->
      exists tier',
        In tier' intensityLevels /\ tierRank "moderate" < tierRank tier'
        /\ Recommendation.details r
           = [ ("newIntensity", VStr tier');
               ("projectedImprovement", VNum (spec_projected 8 tier' 1)) ]
        /\ Recommendation.impact r
           = sub (spec_projected 8 tier' 1)
                 (FeasibilityAssessment.projectedImprovement fa)
        /\ geb (spec_projected 8 tier' 1) (ScoreGap.totalGap g) = true
        /\ forall x, In x intensityLevels ->
             tierRank "moderate" < tierRank x < tierRank tier' ->
             geb (spec_projected 8 x 1) (ScoreGap.totalGap g) = false)
  /\ (Recommendation.type r = add_tutoring ->
      1 < 4
      /\ Recommendation.details r
         = [ ("currentSessions", VNum (of_Z 1));
             ("recommendedSessions", VNum (of_Z (1 + 1)));
             ("projectedWithMoreTutoring",
              VNum (projectedWithMoreTutoring 8 "moderate" 1)) ]
      /\ Recommendation.impact r
         = sub (projectedWithMoreTutoring 8 "moderate" 1)
               (FeasibilityAssessment.projectedImprovement fa)
      /\ geb (projectedWithMoreTutoring 8 "moderate" 1)
             (ScoreGap.totalGap g) = true).
Proof.
  intros tl g fa r.
  assert (H1 : In "moderate" intensityLevels) by (simpl; tauto).
  assert (H2 : 1 <= 1 <= 4) by lia.
  assert (H3 : In r (FeasibilityAssessment.recommendations fa))
    by (vm_compute; left; reflexivity).
  split; [exact H1 |]. split; [exact H2 |]. split; [exact H3 |].
  exact (assessFeasibility_high_priority_backed tl g "moderate" 1 r H1 H2 H3).
Defined.

(** ** Tutoring sessions *)

Lemma focus_sizes (phaseName : string) (weekNumber totalWeeks : Z) :
  let f := getTutoringFocusForPhase phaseName weekNumber totalWeeks in
  List.length (Focus.focus f) = 2%nat /\ List.length (Focus.topics f) = 4%nat.
Proof.
  unfold getTutoringFocusForPhase.
  repeat match goal with
         | |- context [if ?c then _ else _] => destruct c
         end; split; reflexivity.
Qed.

Lemma range_map_length {A} (f : Z -> A) (n : nat) (lo : Z) :
  List.length (map f (range lo n)) = n.
Proof. rewrite length_map. apply range_length. Qed.

Lemma in_range (n : nat) : forall lo x, In x (range lo n) <-> lo <= x < lo + Z.of_nat n.
Proof.
  induction n as [| n IH]; intros lo x.
  - simpl. lia.
  - cbn [range In]. rewrite IH. lia.
Qed.

(** Topics handed out by the loop from session [i] on, [k] sessions. *)
Lemma topics_dealt (a b c d : string) (n : nat) :
  forall i, 1 <= i ->
    List.concat (map (fun j => slice [a; b; c; d] ((j - 1) * 2) (j * 2)) (range i n))
    = firstn (2 * n) (skipn (2 * Z.to_nat (i - 1)) [a; b; c; d]).
Proof.
  induction n as [| n IH]; intros i Hi.
  - reflexivity.
  - cbn [range map List.concat]. rewrite IH by lia.
    unfold slice.
    replace (Z.to_nat (i * 2 - (i - 1) * 2)) with 2%nat by lia.
    replace (Z.to_nat ((i - 1) * 2)) with (2 * Z.to_nat (i - 1))%nat by lia.
    replace (Z.to_nat (i + 1 - 1)) with (S (Z.to_nat (i - 1))) by lia.
    generalize (Z.to_nat (i - 1)). intros k.
    replace (2 * S n)%nat with (S (S (2 * n))) by lia.
    destruct k as [| [| k]].
    + change (2 * 0)%nat with 0%nat. change (2 * 1)%nat with 2%nat.
      cbn [skipn firstn app]. reflexivity.
    + change (2 * 1)%nat with 2%nat. change (2 * 2)%nat with 4%nat.
      cbn [skipn firstn app]. rewrite !firstn_nil. reflexivity.
    + replace (2 * S (S k))%nat with (S (S (S (S (2 * k))))) by lia.
      replace (2 * S (S (S k)))%nat with (S (S (S (S (S (S (2 * k))))))) by lia.
      cbn [skipn]. rewrite !skipn_nil, !firstn_nil. reflexivity.
Qed.

(** X7.  Whatever the phase and the week, a week has exactly the requested
    number of tutoring sessions, numbered from 1, of 60 minutes each and
    with one common focus; the four topics of the week are dealt two per
    session, so that the first two sessions carry all of them and any
    further session carries none. *)
Theorem generateTutoringSessions_shape (t : Z) (phase : Phase.t)
    (weekNumber totalWeeks : Z) :
  let f := getTutoringFocusForPhase (Phase.name phase) weekNumber totalWeeks in
  let sessions := generateTutoringSessions t phase weekNumber totalWeeks in
  List.length sessions = Z.to_nat t
  /\ map TutoringSession.sessionNumber sessions = range 1 (Z.to_nat t)
  /\ Forall (fun s =>
       TutoringSession.duration s = 60
       /\ TutoringSession.focus s = Focus.focus f
       /\ List.length (TutoringSession.focus s) = 2%nat
       /\ (TutoringSession.sessionNumber s <= 2 ->
           List.length (TutoringSession.suggestedTopics s) = 2%nat)
       /\ (3 <= TutoringSession.sessionNumber s ->
           TutoringSession.suggestedTopics s = [])) sessions
  /\ List.concat (map TutoringSession.suggestedTopics sessions)
     = firstn (2 * Z.to_nat t) (Focus.topics f).
Proof.
  intros f sessions. subst sessions. unfold generateTutoringSessions.
  fold f.
  destruct (focus_sizes (Phase.name phase) weekNumber totalWeeks) as [Hf Ht].
  fold f in Hf, Ht.
  destruct (Focus.topics f) as [| a [| b [| c [| d [| ? ?]]]]] eqn:Etopics;
    try discriminate Ht.
  split; [apply range_map_length |].
  split; [rewrite map_map; cbn [TutoringSession.sessionNumber]; apply map_id |].
  split.
  - apply Forall_forall. intros s Hs. apply in_map_iff in Hs.
    destruct Hs as (i & <- & Hi). apply in_range in Hi.
    cbn [TutoringSession.duration TutoringSession.focus
         TutoringSession.sessionNumber TutoringSession.suggestedTopics].
    repeat split; try assumption.
    + intros Hle. assert (i = 1 \/ i = 2) as [-> | ->] by lia; reflexivity.
    + intros Hge. unfold slice.
      replace (Z.to_nat ((i - 1) * 2))
        with (S (S (S (S (Z.to_nat ((i - 1) * 2 - 4)))))) by lia.
      cbn [skipn]. rewrite skipn_nil, firstn_nil. reflexivity.
  - rewrite map_map. cbn [TutoringSession.suggestedTopics].
    rewrite (topics_dealt a b c d (Z.to_nat t) 1) by lia.
    reflexivity.
Qed.

(** ** Weekly plans and their phases *)

Lemma generated_phase_facts (pt : PlanType) (w : Z) (g : ScoreGap.t) :
  Forall phaseFacts (generatePhases pt w g).
Proof.
  destruct pt; unfold generatePhases;
    [unfold generateCramPhases; destruct (w <=? 2) | | | |];
    repeat (apply Forall_cons || apply Forall_nil);
    unfold phaseFacts, wholeShare, percentagesSum;
    cbn [Phase.weeklyHours Phase.contentDistribution Phase.objectives
         ContentDistribution.learning ContentDistribution.practice
         ContentDistribution.testing ContentDistribution.review dist];
    repeat split; try (vm_compute; reflexivity); simpl; tauto.
Qed.

(** Every weekly plan is the one built, for some week of the plan, from
    the phase that [find] returns for that week. *)
Lemma weekly_plan_origin (phases : list Phase.t) (W t : Z) (wp : WeeklyPlan.t) :
  In wp (generateWeeklyPlans phases W t) ->
  exists week p,
    1 <= week <= W /\ find (owns week) phases = Some p
    /\ wp = WeeklyPlan.mk week (Phase.name p)
              (generateWeeklyFocus p (week - Phase.startWeek p + 1)
                 (Phase.endWeek p - Phase.startWeek p + 1))
              (generateWeeklyActivities p (week - Phase.startWeek p + 1) week W)
              (generateTutoringSessions t p week W)
              (Phase.weeklyHours p)
              (Math_round (mul (of_Z (Phase.weeklyHours p)) (of_Z 8)))
              (add (of_Z (Phase.weeklyHours p))
                   (div (of_Z (t * TUTORING_SESSION_DURATION)) (of_Z 60))).
Proof.
  unfold generateWeeklyPlans. intros H. apply in_flat_map in H.
  destruct H as (week & Hweek & Hin). apply in_range in Hweek.
  unfold weeklyPlanFor in Hin.
  destruct (find (owns week) phases) as [p |] eqn:Hp; [| destruct Hin].
  destruct Hin as [<- | []].
  exists week, p. repeat split; try lia. exact Hp.
Qed.

Lemma find_owner (phases : list Phase.t) (week : Z) (p : Phase.t) :
  find (owns week) phases = Some p ->
  In p phases /\ Phase.startWeek p <= week <= Phase.endWeek p.
Proof.
  intros H. apply find_some in H. destruct H as [Hin Ho].
  unfold owns in Ho. apply andb_prop in Ho. destruct Ho as [Ha Hb].
  apply Z.leb_le in Ha. apply Z.leb_le in Hb. split; [exact Hin | lia].
Qed.

Lemma activities_of_phase (p : Phase.t) (wip week W : Z) :
  phaseFacts p ->
  let d := Phase.contentDistribution p in
  let h := Phase.weeklyHours p in
  map (fun a => (Activity.type a, Activity.name a, Activity.duration a))
      (generateWeeklyActivities p wip week W)
  = [ (act_lesson, "Video Lessons & Content",
       of_Z (h * 60 * ContentDistribution.learning d / 100));
      (act_practice, "Practice Problems",
       of_Z (h * 60 * ContentDistribution.practice d / 100));
      (testingType week W,
       if week =? 1 then "Diagnostic Test"
       else if week =? W then "Final Preparation"
       else "Practice Test / Section Tests",
       of_Z (h * 60 * ContentDistribution.testing d / 100));
      (act_review, "Review & Flashcards",
       of_Z (h * 60 * ContentDistribution.review d / 100)) ].
Proof.
  intros (_ & _ & _ & (Hl & _ & El) & (Hp & _ & Ep) & (Ht & _ & Et)
          & (Hr & _ & Er)) d h.
  unfold generateWeeklyActivities. cbv zeta. fold d h.
  fold (minutesOf h (ContentDistribution.learning d)).
  fold (minutesOf h (ContentDistribution.practice d)).
  fold (minutesOf h (ContentDistribution.testing d)).
  fold (minutesOf h (ContentDistribution.review d)).
  fold d h in Hl, Hp, Ht, Hr, El, Ep, Et, Er.
  apply Z.ltb_lt in Hl, Hp, Ht, Hr. rewrite Hl, Hp, Ht, Hr.
  rewrite El, Ep, Et, Er. unfold testingType.
  destruct (week =? 1); [reflexivity |].
  destruct (week =? W); reflexivity.
Qed.

Lemma shares_add_up (p : Phase.t) :
  phaseFacts p ->
  let d := Phase.contentDistribution p in
  let h := Phase.weeklyHours p in
  h * 60 * ContentDistribution.learning d / 100
  + h * 60 * ContentDistribution.practice d / 100
  + h * 60 * ContentDistribution.testing d / 100
  + h * 60 * ContentDistribution.review d / 100 = 60 * h.
Proof.
  intros (_ & _ & Hsum & (_ & Ml & _) & (_ & Mp & _) & (_ & Mt & _)
          & (_ & Mr & _)) d h.
  unfold percentagesSum in Hsum. fold d in Hsum. fold d h in Ml, Mp, Mt, Mr.
  pose proof (Z.div_mod (h * 60 * ContentDistribution.learning d) 100 ltac:(lia)).
  pose proof (Z.div_mod (h * 60 * ContentDistribution.practice d) 100 ltac:(lia)).
  pose proof (Z.div_mod (h * 60 * ContentDistribution.testing d) 100 ltac:(lia)).
  pose proof (Z.div_mod (h * 60 * ContentDistribution.review d) 100 ltac:(lia)).
  nia.
Qed.

Lemma plan_phase_facts (w t : Z) (g : ScoreGap.t) (wp : WeeklyPlan.t) :
  In wp (generateWeeklyPlans (generatePhases (selectPlanType w) w g) w t) ->
  exists week p,
    1 <= week <= w
    /\ find (owns week) (generatePhases (selectPlanType w) w g) = Some p
    /\ phaseFacts p
    /\ wp = WeeklyPlan.mk week (Phase.name p)
              (generateWeeklyFocus p (week - Phase.startWeek p + 1)
                 (Phase.endWeek p - Phase.startWeek p + 1))
              (generateWeeklyActivities p (week - Phase.startWeek p + 1) week w)
              (generateTutoringSessions t p week w)
              (Phase.weeklyHours p)
              (Math_round (mul (of_Z (Phase.weeklyHours p)) (of_Z 8)))
              (add (of_Z (Phase.weeklyHours p))
                   (div (of_Z (t * TUTORING_SESSION_DURATION)) (of_Z 60))).
Proof.
  intros H. destruct (weekly_plan_origin _ _ _ _ H) as (week & p & Hw & Hp & ->).
  exists week, p. split; [lia |]. split; [exact Hp |].
  split; [| reflexivity].
  destruct (find_owner _ _ _ Hp) as [Hin _].
  exact (proj1 (Forall_forall _ _) (generated_phase_facts _ w g) p Hin).
Qed.

(** X8.  Every week of a generated plan has the same four activities, in
    the order lesson, practice, testing, review; the testing activity is
    the diagnostic in week 1, the final preparation in the last week
    (unless that is week 1) and a practice test otherwise; and the four
    durations are whole minutes that add up to exactly the week's target
    hours. *)
Theorem generateWeeklyPlans_activities (w t : Z) (g : ScoreGap.t)
    (wp : WeeklyPlan.t)
    (Hin : In wp (generateWeeklyPlans
                    (generatePhases (selectPlanType w) w g) w t)) :
  map (fun a => (Activity.type a, Activity.name a)) (WeeklyPlan.activities wp)
  = [ (act_lesson, "Video Lessons & Content");
      (act_practice, "Practice Problems");
      (testingType (WeeklyPlan.weekNumber wp) w,
       if WeeklyPlan.weekNumber wp =? 1 then "Diagnostic Test"
       else if WeeklyPlan.weekNumber wp =? w then "Final Preparation"
       else "Practice Test / Section Tests");
      (act_review, "Review & Flashcards") ]
  /\ exists a b c d,
       map Activity.duration (WeeklyPlan.activities wp)
       = [of_Z a; of_Z b; of_Z c; of_Z d]
       /\ 0 < a /\ 0 < b /\ 0 < c /\ 0 < d
       /\ a + b + c + d = 60 * WeeklyPlan.targetHours wp.
Proof.
  destruct (plan_phase_facts w t g wp Hin) as (week & p & Hweek & Hp & Hf & ->).
  cbn [WeeklyPlan.activities WeeklyPlan.weekNumber WeeklyPlan.targetHours].
  pose proof (activities_of_phase p (week - Phase.startWeek p + 1) week w Hf)
    as Hact. cbv zeta in Hact.
  pose proof (shares_add_up p Hf) as Hsum. cbv zeta in Hsum.
  set (acts := generateWeeklyActivities p (week - Phase.startWeek p + 1) week w)
    in *.
  split.
  - replace (map (fun a => (Activity.type a, Activity.name a)) acts)
      with (map fst (map (fun a => (Activity.type a, Activity.name a,
                                      Activity.duration a)) acts))
      by (rewrite map_map; reflexivity).
    rewrite Hact. reflexivity.
  - do 4 eexists. split.
    + replace (map Activity.duration acts)
        with (map snd (map (fun a => (Activity.type a, Activity.name a,
                                        Activity.duration a)) acts))
        by (rewrite map_map; reflexivity).
      rewrite Hact. reflexivity.
    + destruct Hf as (Hh & _ & _ & (Hl & Ml & _) & (Hp' & Mp & _)
                      & (Ht & Mt & _) & (Hr & Mr & _)).
      assert (Hhpos : 0 < Phase.weeklyHours p).
      { simpl in Hh. lia. }
      repeat split; try exact Hsum;
        apply Z.div_str_pos; split; try lia;
        apply Z.mod_divide in Ml, Mp, Mt, Mr; try lia.
      * destruct Ml as [k Hk]. nia.
      * destruct Mp as [k Hk]. nia.
      * destruct Mt as [k Hk]. nia.
      * destruct Mr as [k Hk]. nia.
Qed.

Lemma generateWeeklyPlans_activities_witness :
  let g := calculateScoreGap (of_Z 1080) (of_Z 1350) in
  let plans := generateWeeklyPlans (generatePhases (selectPlanType 3) 3 g) 3 2 in
  let wp := last plans (WeeklyPlan.mk 0 "none" [] [] [] 0 NaN NaN) in
  In wp plans
  /\ map (fun a => (Activity.type a, Activity.name a)) (WeeklyPlan.activities wp)
     = [ (act_lesson, "Video Lessons & Content");
         (act_practice, "Practice Problems");
         (testingType (WeeklyPlan.weekNumber wp) 3,
          if WeeklyPlan.weekNumber wp =? 1 then "Diagnostic Test"
          else if WeeklyPlan.weekNumber wp =? 3 then "Final Preparation"
          else "Practice Test / Section Tests");
         (act_review, "Review & Flashcards") ]
  /\ exists a b c d,
       map Activity.duration (WeeklyPlan.activities wp)
       = [of_Z a; of_Z b; of_Z c; of_Z d]
       /\ 0 < a /\ 0 < b /\ 0 < c /\ 0 < d
       /\ a + b + c + d = 60 * WeeklyPlan.targetHours wp.
Proof.
  intros g plans wp.
  assert (H : In wp plans) by (vm_compute; right; right; left; reflexivity).
  split; [exact H |].
  exact (generateWeeklyPlans_activities 3 2 g wp H).
Defined.

(** X9.  The figures of a weekly plan agree with each other: the target
    hours are those of the owning phase, the target problems are eight
    per hour, and the total is the target hours plus one hour for each
    tutoring session. *)
Theorem generateWeeklyPlans_hours (w t : Z) (g : ScoreGap.t)
    (wp : WeeklyPlan.t)
    (Ht : 1 <= t <= 4)
    (Hin : In wp (generateWeeklyPlans
                    (generatePhases (selectPlanType w) w g) w t)) :
  In (WeeklyPlan.targetHours wp) [6; 8; 10; 12; 14; 15]
  /\ WeeklyPlan.targetProblems wp = of_Z (8 * WeeklyPlan.targetHours wp)
  /\ WeeklyPlan.totalHoursWithTutoring wp
     = of_Z (WeeklyPlan.targetHours wp + t)
  /\ List.length (WeeklyPlan.tutoringSessions wp) = Z.to_nat t
  /\ exists p,
       In p (generatePhases (selectPlanType w) w g)
       /\ WeeklyPlan.phase wp = Phase.name p
       /\ WeeklyPlan.targetHours wp = Phase.weeklyHours p
       /\ Phase.startWeek p <= WeeklyPlan.weekNumber wp <= Phase.endWeek p.
Proof.
  destruct (plan_phase_facts w t g wp Hin) as (week & p & Hweek & Hp & Hf & ->).
  cbn [WeeklyPlan.targetHours WeeklyPlan.targetProblems
       WeeklyPlan.totalHoursWithTutoring WeeklyPlan.tutoringSessions
       WeeklyPlan.phase WeeklyPlan.weekNumber].
  destruct Hf as (Hh & _).
  destruct (find_owner _ _ _ Hp) as [Hinp Hspan].
  split; [exact Hh |].
  split; [| split; [| split]].
  - destruct Hh as [<- | [<- | [<- | [<- | [<- | [<- | []]]]]]]; reflexivity.
  - destruct Hh as [<- | [<- | [<- | [<- | [<- | [<- | []]]]]]];
      enumerate t 1 4; reflexivity.
  - unfold generateTutoringSessions. apply range_map_length.
  - exists p. repeat split; try assumption; lia.
Qed.

Lemma generateWeeklyPlans_hours_witness :
  let g := calculateScoreGap (of_Z 1080) (of_Z 1350) in
  let phases := generatePhases (selectPlanType 6) 6 g in
  let plans := generateWeeklyPlans phases 6 3 in
  let wp := hd (WeeklyPlan.mk 0 "none" [] [] [] 0 NaN NaN) plans in
  1 <= 3 <= 4 /\ In wp plans
  /\ In (WeeklyPlan.targetHours wp) [6; 8; 10; 12; 14; 15]
  /\ WeeklyPlan.targetProblems wp = of_Z (8 * WeeklyPlan.targetHours wp)
  /\ WeeklyPlan.totalHoursWithTutoring wp
     = of_Z (WeeklyPlan.targetHours wp + 3)
  /\ List.length (WeeklyPlan.tutoringSessions wp) = Z.to_nat 3
  /\ exists p,
       In p phases
       /\ WeeklyPlan.phase wp = Phase.name p
       /\ WeeklyPlan.targetHours wp = Phase.weeklyHours p
       /\ Phase.startWeek p <= WeeklyPlan.weekNumber wp <= Phase.endWeek p.
Proof.
  intros g phases plans wp.
  assert (H1 : 1 <= 3 <= 4) by lia.
  assert (H2 : In wp plans) by (vm_compute; left; reflexivity).
  split; [exact H1 |]. split; [exact H2 |].
  exact (generateWeeklyPlans_hours 6 3 g wp H1 H2).
Defined.

(** ** Weekly focus *)

(** X10.  Over the weeks of a phase with four objectives (and at most 52
    weeks) the focus lists, taken in order, are the "Begin ... phase"
    line followed by the four objectives: each objective is scheduled
    exactly once, in order. *)
Theorem generateWeeklyFocus_schedules_each_objective (phase : Phase.t) (n : Z)
    (Hobj : List.length (Phase.objectives phase) = 4%nat)
    (Hn : 1 <= n <= 52) :
  List.concat (map (fun k => generateWeeklyFocus phase k n)
                   (range 1 (Z.to_nat n)))
  = ("Begin " ++ Phase.name phase ++ " phase")%string
    :: Phase.objectives phase.
Proof.
  destruct phase as [name s e f objs h d]. cbn [Phase.objectives Phase.name] in *.
  destruct objs as [| a [| b [| c [| x [| ? ?]]]]]; try discriminate Hobj.
  clear Hobj.
  enumerate n 1 52; vm_compute; reflexivity.
Qed.

Lemma generateWeeklyFocus_schedules_each_objective_witness :
  let phase := Phase.mk "Foundation" 1 3 "Core concepts"
                 ["Algebra"; "Grammar"; "Reading"; "Geometry"] 10
                 (ContentDistribution.mk 40 30 20 10) in
  List.length (Phase.objectives phase) = 4%nat /\ 1 <= 3 <= 52
  /\ List.concat (map (fun k => generateWeeklyFocus phase k 3)
                      (range 1 (Z.to_nat 3)))
     = ("Begin " ++ Phase.name phase ++ " phase")%string
       :: Phase.objectives phase.
Proof.
  intros phase.
  assert (H1 : List.length (Phase.objectives phase) = 4%nat) by reflexivity.
  assert (H2 : 1 <= 3 <= 52) by lia.
  split; [exact H1 |]. split; [exact H2 |].
  exact (generateWeeklyFocus_schedules_each_objective phase 3 H1 H2).
Defined.

(** ** Timeline *)

Lemma forallb_range (f : Z -> bool) (n : nat) :
  forall lo, forallb f (range lo n) = true ->
    forall x, lo <= x < lo + Z.of_nat n -> f x = true.
Proof.
  intros lo H x Hx. rewrite forallb_forall in H. apply H.
  apply in_range. exact Hx.
Qed.

Lemma timeline_checked :
  forallb (fun r => forallb (timelineAgrees r) (range (-366) (Z.to_nat 4027)))
          [-3600000; 0; 3600000] = true.
Proof. vm_compute. reflexivity. Qed.

(** X11.  When the two local midnights are [d] whole days apart (a year
    back to ten years ahead), possibly one hour more or less because of
    a daylight-saving change in between, the timeline counts [d] days,
    or [d + 1] when the span is an hour longer; the weeks are the whole
    weeks in that count and the effective weeks one less, but at least
    1.  So every test date less than three weeks away, past dates
    included, gets one effective week. *)
Theorem calculateTimeline_whole_days (midnight : Date -> Date)
    (today testDate d r : Z)
    (Hspan : midnight testDate - midnight today = d * 86400000 + r)
    (Hd : -366 <= d <= 3660)
    (Hr : In r [-3600000; 0; 3600000]) :
  let tl := calculateTimeline midnight today testDate in
  Timeline.totalDays tl = (if 0 <? r then d + 1 else d)
  /\ Timeline.totalWeeks tl = Timeline.totalDays tl / 7
  /\ Timeline.effectiveWeeks tl = Z.max 1 (Timeline.totalDays tl / 7 - 1)
  /\ (Timeline.totalDays tl < 21 -> Timeline.effectiveWeeks tl = 1).
Proof.
  intros tl.
  assert (Hcheck : timelineAgrees r d = true).
  { pose proof timeline_checked as H. rewrite forallb_forall in H.
    specialize (H r Hr). cbv beta in H.
    apply (forallb_range _ _ _ H). lia. }
  unfold timelineAgrees, calculateTimeline in Hcheck.
  cbv beta zeta in Hcheck.
  cbn [Timeline.totalDays Timeline.totalWeeks] in Hcheck.
  rewrite Z.sub_0_r in Hcheck.
  apply andb_prop in Hcheck. destruct Hcheck as [Hdays Hweeks].
  apply Z.eqb_eq in Hdays, Hweeks.
  subst tl. unfold calculateTimeline. cbv zeta. rewrite Hspan.
  cbn [Timeline.totalDays Timeline.totalWeeks Timeline.effectiveWeeks].
  rewrite Hweeks, Hdays.
  repeat split.
  intros Hlt.
  assert ((if 0 <? r then d + 1 else d) / 7 <= 2).
  { apply Z.lt_succ_r. apply Z.div_lt_upper_bound; lia. }
  lia.
Qed.

Lemma calculateTimeline_whole_days_witness :
  let today := 1735689600000 in
  let testDate := today + 140 * 86400000 + 50000000 in
  utc_midnight testDate - utc_midnight today = 140 * 86400000 + 0
  /\ -366 <= 140 <= 3660 /\ In 0 [-3600000; 0; 3600000]
  /\ (let tl := calculateTimeline utc_midnight today testDate in
      Timeline.totalDays tl = (if 0 <? 0 then 140 + 1 else 140)
      /\ Timeline.totalWeeks tl = Timeline.totalDays tl / 7
      /\ Timeline.effectiveWeeks tl = Z.max 1 (Timeline.totalDays tl / 7 - 1)
      /\ (Timeline.totalDays tl < 21 -> Timeline.effectiveWeeks tl = 1)).
Proof.
  intros today testDate.
  assert (H1 : utc_midnight testDate - utc_midnight today
               = 140 * 86400000 + 0) by reflexivity.
  assert (H2 : -366 <= 140 <= 3660) by lia.
  assert (H3 : In 0 [-3600000; 0; 3600000]) by (simpl; tauto).
  split; [exact H1 |]. split; [exact H2 |]. split; [exact H3 |].
  exact (calculateTimeline_whole_days utc_midnight today testDate 140 0
           H1 H2 H3).
Defined.

(** ** Phases: names and owners *)

Lemma later_phases_start_later (l : list Phase.t) :
  forall p, contiguous (p :: l) -> Forall spanOrdered (p :: l) ->
    forall q, In q l -> Phase.endWeek p < Phase.startWeek q.
Proof.
  induction l as [| q0 l IH]; intros p Hc Ho q Hq; [destruct Hq |].
  destruct Hc as [Hpq Hc]. inversion Ho as [| ? ? Hp Ho']; subst.
  destruct Hq as [<- | Hq]; [lia |].
  pose proof (IH q0 Hc Ho' q Hq).
  inversion Ho' as [| ? ? Hq0 _]; subst. unfold spanOrdered in Hq0. lia.
Qed.

Lemma tile_unique_owner (l : list Phase.t) :
  contiguous l -> Forall spanOrdered l ->
  forall week p q, In p l -> In q l ->
    owns week p = true -> owns week q = true -> p = q.
Proof.
  induction l as [| a l IH]; intros Hc Ho week p q Hp Hq Op Oq; [destruct Hp |].
  assert (Hlater : forall x, In x l -> owns week a = true -> owns week x = true
                             -> False).
  { intros x Hx Oa Ox. pose proof (later_phases_start_later l a Hc Ho x Hx).
    unfold owns in Oa, Ox. apply andb_prop in Oa, Ox.
    destruct Oa as [_ Oa], Ox as [Ox _]. apply Z.leb_le in Oa, Ox. lia. }
  assert (Hc' : contiguous l).
  { destruct l as [| b l]; [exact I | exact (proj2 Hc)]. }
  inversion Ho as [| ? ? _ Ho']; subst.
  destruct Hp as [<- | Hp]; destruct Hq as [<- | Hq].
  - reflexivity.
  - exfalso. exact (Hlater q Hq Op Oq).
  - exfalso. exact (Hlater p Hp Oq Op).
  - exact (IH Hc' Ho' week p q Hp Hq Op Oq).
Qed.

(** X12.  Within a plan the phase names are pairwise different, and no week
    lies in the span of two phases: the phase name a weekly plan carries
    identifies its one owning phase. *)
Theorem generatePhases_names_and_owner_unique (w : Z) (g : ScoreGap.t)
    (Hw : 1 <= w) :
  let phases := generatePhases (selectPlanType w) w g in
  NoDup (map Phase.name phases)
  /\ forall week p q, In p phases -> In q phases ->
       owns week p = true -> owns week q = true -> p = q.
Proof.
  intros phases. split.
  - subst phases. destruct (selectPlanType w); unfold generatePhases;
      [unfold generateCramPhases; destruct (w <=? 2) | | | |];
      cbn [map Phase.name];
      repeat (apply NoDup_cons; [cbn [In]; intuition discriminate |]);
      apply NoDup_nil.
  - destruct (Z.eq_dec w 1) as [-> | Hne].
    + intros week p q Hp Hq Op Oq. subst phases.
      change (generatePhases (selectPlanType 1) 1 g)
        with (generateCramPhases 1) in Hp, Hq.
      unfold generateCramPhases in Hp, Hq. cbn [Z.leb Z.compare] in Hp, Hq.
      cbv iota in Hp, Hq.
      destruct Hp as [<- | [<- | []]]; destruct Hq as [<- | [<- | []]];
        try reflexivity; exfalso;
        unfold owns in Op, Oq; cbn [Phase.startWeek Phase.endWeek] in Op, Oq;
        apply andb_prop in Op, Oq; destruct Op as [A B], Oq as [C D];
        apply Z.leb_le in A, B, C, D; lia.
    + destruct (phases_tile w g Hw) as (_ & Hc & _).
      apply tile_unique_owner; [exact Hc |].
      apply phases_ordered_from_two. lia.
Qed.

Lemma generatePhases_names_and_owner_unique_witness :
  1 <= 19
  /\ (let phases := generatePhases (selectPlanType 19) 19
                      (calculateScoreGap (of_Z 1080) (of_Z 1350)) in
      NoDup (map Phase.name phases)
      /\ forall week p q, In p phases -> In q phases ->
           owns week p = true -> owns week q = true -> p = q).
Proof.
  split; [lia |].
  apply (generatePhases_names_and_owner_unique 19); lia.
Defined.

(** ** The assembled plan *)




(** ** Results that are numbers *)








(** ** The assessment inside the pipeline *)

















(** ** Entries of the weekly focus *)

Lemma slice_incl {A} (l : list A) (a b : Z) (x : A) :
  In x (slice l a b) -> In x l.
Proof.
  unfold slice. intros H.
  rewrite <- (firstn_skipn (Z.to_nat a) l). apply in_or_app. right.
  rewrite <- (firstn_skipn (Z.to_nat (b - a)) (skipn (Z.to_nat a) l)).
  apply in_or_app. left. exact H.
Qed.

(** X18.  The focus list of a week holds nothing but the "Begin ... phase"
    line, which opens the list of the first week of the owning phase and
    of no other week, and objectives of that phase. *)
Theorem generateWeeklyPlans_focus_entries (w t : Z) (g : ScoreGap.t)
    (wp : WeeklyPlan.t)
    (Hin : In wp (generateWeeklyPlans
                    (generatePhases (selectPlanType w) w g) w t)) :
  exists p,
    In p (generatePhases (selectPlanType w) w g)
    /\ WeeklyPlan.phase wp = Phase.name p
    /\ Phase.startWeek p <= WeeklyPlan.weekNumber wp <= Phase.endWeek p
    /\ (WeeklyPlan.weekNumber wp = Phase.startWeek p ->
        hd_error (WeeklyPlan.focus wp)
        = Some ("Begin " ++ Phase.name p ++ " phase")%string)
    /\ forall x, In x (WeeklyPlan.focus wp) ->
         (x = ("Begin " ++ Phase.name p ++ " phase")%string
          /\ WeeklyPlan.weekNumber wp = Phase.startWeek p)
         \/ In x (Phase.objectives p).
Proof.
  destruct (weekly_plan_origin _ _ _ _ Hin) as (week & p & Hweek & Hp & ->).
  destruct (find_owner _ _ _ Hp) as [Hinp Hspan].
  exists p. cbn [WeeklyPlan.phase WeeklyPlan.weekNumber WeeklyPlan.focus].
  split; [exact Hinp |]. split; [reflexivity |]. split; [exact Hspan |].
  unfold generateWeeklyFocus. cbv zeta.
  destruct (Z.eqb_spec (week - Phase.startWeek p + 1) 1) as [E | E].
  - split; [intros _; reflexivity |].
    intros x Hx. cbn [app] in Hx.
    destruct Hx as [<- | Hx]; [left; split; [reflexivity | lia] |].
    right.
    match type of Hx with
    | In _ (if ?c then _ else _) => destruct c
    end; [exact (slice_incl _ _ _ _ Hx) | destruct Hx].
  - split; [intros Heq; exfalso; lia |].
    intros x Hx. right. cbn [app] in Hx.
    match type of Hx with
    | In _ (if ?c then _ else _) => destruct c
    end; [exact (slice_incl _ _ _ _ Hx) | destruct Hx].
Qed.

Lemma generateWeeklyPlans_focus_entries_witness :
  let g := calculateScoreGap (of_Z 1080) (of_Z 1350) in
  let phases := generatePhases (selectPlanType 6) 6 g in
  let plans := generateWeeklyPlans phases 6 3 in
  let wp := hd (WeeklyPlan.mk 0 "none" [] [] [] 0 NaN NaN) plans in
  In wp plans
  /\ exists p,
       In p phases
       /\ WeeklyPlan.phase wp = Phase.name p
       /\ Phase.startWeek p <= WeeklyPlan.weekNumber wp <= Phase.endWeek p
       /\ (WeeklyPlan.weekNumber wp = Phase.startWeek p ->
           hd_error (WeeklyPlan.focus wp)
           = Some ("Begin " ++ Phase.name p ++ " phase")%string)
       /\ forall x, In x (WeeklyPlan.focus wp) ->
            (x = ("Begin " ++ Phase.name p ++ " phase")%string
             /\ WeeklyPlan.weekNumber wp = Phase.startWeek p)
            \/ In x (Phase.objectives p).
Proof.
  intros g phases plans wp.
  assert (H : In wp plans) by (vm_compute; left; reflexivity).
  split; [exact H |].
  exact (generateWeeklyPlans_focus_entries 6 3 g wp H).
Defined.

(** ** Intensity for a session count outside the table *)

Lemma div_nan_r (x : number) : div x NaN = NaN.
Proof. destruct x; reflexivity. Qed.

Lemma leb_nan_l (x : number) : leb NaN x = false.
Proof. reflexivity. Qed.

(** X19.  A session count outside 1..4 has no multiplier; the gain needed
    is then NaN, every threshold test fails and the last branch
    recommends "very_intensive" with its 16.5 hours, whatever the gap and
    the weeks. *)
Theorem recommendIntensity_unknown_sessions (w : Z) (gap : number) (t : Z)
    (Ht : ~ 1 <= t <= 4) :
  recommendIntensity w gap t = ("very_intensive", lit 165 10).
Proof.
  unfold recommendIntensity. cbv zeta.
  rewrite (multiplier_missing t Ht), div_nan_r, !leb_nan_l.
  reflexivity.
Qed.

Lemma recommendIntensity_unknown_sessions_witness :
  ~ 1 <= 5 <= 4
  /\ recommendIntensity 12 (of_Z 0) 5 = ("very_intensive", lit 165 10).
Proof.
  assert (H : ~ 1 <= 5 <= 4) by lia.
  split; [exact H |].
  exact (recommendIntensity_unknown_sessions 12 (of_Z 0) 5 H).
Defined.
